(** * Diagnostic Git agent: a shallow embedding of [agent.py]

    The five tool functions of [agent.py] ([diagnose_git_setup],
    [test_simple_clone], [get_github_file], [fix_git_setup],
    [create_file_via_api]) are embedded as computations in a small
    state-and-exception monad.  Every call that leaves the process
    (a subprocess, an HTTP request, the file system, standard output) is
    answered by a [World] and logged, with its outcome, in a trace.

    Python strings are modelled by [string], holding the UTF-8 bytes of the
    text; where the code counts characters, as in [text[:200]], the model
    counts code points. *)

From Stdlib Require Import String Ascii List ZArith Bool Lia DecimalString.
Import ListNotations.
Local Open Scope list_scope.
Local Open Scope string_scope.

(** ** Strings *)

Module Str.

(** [all p s]: every character of [s] satisfies [p]. *)
Fixpoint all (p : ascii -> bool) (s : string) : bool :=
  match s with
  | EmptyString => true
  | String c t => p c && all p t
  end.

(** [s.startswith(pre)], returning what follows the prefix. *)
Fixpoint strip_prefix (pre s : string) : option string :=
  match pre with
  | EmptyString => Some s
  | String a pre' =>
      match s with
      | EmptyString => None
      | String b s' => if Ascii.eqb a b then strip_prefix pre' s' else None
      end
  end.

Definition startswith (pre s : string) : bool :=
  match strip_prefix pre s with Some _ => true | None => false end.

(** [str.replace(old, new)] for a non-empty [old]: occurrences are found
    from left to right and do not overlap.  [skip] counts the characters of
    the occurrence just replaced that are still to be dropped. *)
Fixpoint replace_from (old new : string) (skip : nat) (s : string) : string :=
  match s with
  | EmptyString => EmptyString
  | String c t =>
      match skip with
      | S k => replace_from old new k t
      | O =>
          if startswith old s
          then new ++ replace_from old new (String.length old - 1) t
          else String c (replace_from old new 0 t)
      end
  end.

Definition replace (old new s : string) : string := replace_from old new 0 s.

(** The characters [str.strip()] removes, within the ASCII range. *)
Definition is_space (c : ascii) : bool :=
  let n := nat_of_ascii c in
  (Nat.leb 9 n && Nat.leb n 13) || (Nat.leb 28 n && Nat.leb n 32).

Fixpoint lstrip (s : string) : string :=
  match s with
  | EmptyString => EmptyString
  | String c t => if is_space c then lstrip t else s
  end.

Fixpoint rstrip (s : string) : string :=
  match s with
  | EmptyString => EmptyString
  | String c t =>
      match rstrip t with
      | EmptyString => if is_space c then EmptyString else String c EmptyString
      | t' => String c t'
      end
  end.

Definition strip (s : string) : string := rstrip (lstrip s).

(** [s.endswith('/')] *)
Fixpoint endswith_slash (s : string) : bool :=
  match s with
  | EmptyString => false
  | String c EmptyString => Ascii.eqb c "/"
  | String _ t => endswith_slash t
  end.

(** A byte that continues a UTF-8 encoded character: [10xxxxxx]. *)
Definition is_continuation (c : ascii) : bool :=
  let n := nat_of_ascii c in
  Nat.leb 128 n && Nat.ltb n 192.

(** [len(s)]: the number of characters, each one a byte that starts a
    character followed by its continuation bytes. *)
Fixpoint chars (s : string) : nat :=
  match s with
  | EmptyString => 0
  | String c t => (if is_continuation c then 0 else 1) + chars t
  end.

(** [s[:n]]: the first [n] characters, with all their bytes. *)
Fixpoint take (n : nat) (s : string) : string :=
  match s with
  | EmptyString => EmptyString
  | String c t =>
      if is_continuation c then String c (take n t)
      else match n with
           | O => EmptyString
           | S n' => String c (take n' t)
           end
  end.

(** [str(n)] for an integer. *)
Definition of_Z (z : Z) : string := NilEmpty.string_of_int (Z.to_int z).

(** The pieces of [s] between its slashes. *)
Fixpoint segs (s : string) : list string :=
  match s with
  | EmptyString => [EmptyString]
  | String c t =>
      if Ascii.eqb c "/" then EmptyString :: segs t
      else match segs t with
           | h :: r => String c h :: r
           | [] => [String c EmptyString]
           end
  end.

(** Two slashes in a row somewhere in [s]. *)
Fixpoint has_dslash (s : string) : bool :=
  match s with
  | EmptyString => false
  | String c t =>
      match t with
      | String d _ => (Ascii.eqb c "/" && Ascii.eqb d "/") || has_dslash t
      | EmptyString => false
      end
  end.

End Str.

(** ** Regular expressions, as [re.search] runs them

    The fragment of Python's [re] syntax that [url_pattern] uses: literals,
    [[...]+] and [[...]+?] over a character class, [(?:r)?], capturing
    groups, concatenation and [$].  [matches r s] lists every way [r]
    matches a prefix of [s], in the order in which the backtracking matcher
    tries them, so its head is the match the matcher reports. *)

Module Re.

Inductive regex : Type :=
| Lit (l : string)
| Plus (cls : ascii -> bool) (greedy : bool)
| Opt (r : regex)
| Group (r : regex)
| Seq (r1 r2 : regex)
| EndOfString.

(** One way of matching: the groups captured (in the order of their opening
    parentheses), the text consumed and the text left. *)
Record m : Type := mk { groups : list string; consumed : string; rest : string }.

(** Every split of [s] into a non-empty run of [cls] characters and the
    rest, shortest run first. *)
Fixpoint spans (cls : ascii -> bool) (s : string) : list (string * string) :=
  match s with
  | EmptyString => []
  | String c t =>
      if cls c
      then (String c EmptyString, t)
             :: map (fun ar => (String c (fst ar), snd ar)) (spans cls t)
      else []
  end.

(** [$] matches at the end of the string and just before a final newline. *)
Definition at_end (s : string) : bool :=
  String.eqb s "" || String.eqb s (String "010" "").

Fixpoint matches (r : regex) (s : string) : list m :=
  match r with
  | Lit l =>
      match Str.strip_prefix l s with
      | Some t => [mk [] l t]
      | None => []
      end
  | Plus cls greedy =>
      map (fun ar => mk [] (fst ar) (snd ar))
          (if greedy then rev (spans cls s) else spans cls s)
  | Opt r1 => matches r1 s ++ [mk [] "" s]
  | Group r1 =>
      map (fun x => mk (consumed x :: groups x) (consumed x) (rest x))
          (matches r1 s)
  | Seq r1 r2 =>
      flat_map
        (fun x =>
           map (fun y => mk (groups x ++ groups y)
                            (consumed x ++ consumed y) (rest y))
               (matches r2 (rest x)))
        (matches r1 s)
  | EndOfString => if at_end s then [mk [] "" s] else []
  end.

(** [re.search]: the first match at the leftmost position that has one;
    the result is [match.groups()]. *)
Fixpoint search (r : regex) (s : string) : option (list string) :=
  match matches r s with
  | x :: _ => Some (groups x)
  | [] =>
      match s with
      | EmptyString => None
      | String _ t => search r t
      end
  end.

End Re.

(** ** The repository URL parser

    [url_pattern = r'github\.com/([^/]+)/([^/]+?)(?:\.git)?/?$'] *)

Definition not_slash (c : ascii) : bool := negb (Ascii.eqb c "/").

Definition url_tail : Re.regex :=
  Re.Seq (Re.Opt (Re.Lit ".git")) (Re.Seq (Re.Opt (Re.Lit "/")) Re.EndOfString).

Definition url_pattern : Re.regex :=
  Re.Seq (Re.Lit "github.com/")
    (Re.Seq (Re.Group (Re.Plus not_slash true))
       (Re.Seq (Re.Lit "/")
          (Re.Seq (Re.Group (Re.Plus not_slash false)) url_tail))).

(** [repository_url.replace('https://', '').replace('http://', '')] *)
Definition strip_protocol (repository_url : string) : string :=
  Str.replace "http://" "" (Str.replace "https://" "" repository_url).

(** [match = re.search(url_pattern, ...)] followed, when there is a match,
    by [owner, repo = match.groups()]. *)
Definition parse_repo (repository_url : string) : option (string * string) :=
  match Re.search url_pattern (strip_protocol repository_url) with
  | Some [owner; repo] => Some (owner, repo)
  | _ => None
  end.

(** ** Values, exceptions and the outside world *)

(** Python values as they occur in decoded JSON and in the returned records.
    A [VDict] keeps its keys in insertion order. *)
#[warnings="-register-all"]
Inductive value : Type :=
| VNone
| VBool (b : bool)
| VInt (z : Z)
| VStr (s : string)
| VList (l : list value)
| VDict (d : list (string * value)).

Fixpoint dict_get (k : string) (d : list (string * value)) : option value :=
  match d with
  | [] => None
  | (k', v) :: d' => if String.eqb k k' then Some v else dict_get k d'
  end.

(** [d[k] = v] *)
Fixpoint dict_set (k : string) (v : value) (d : list (string * value))
  : list (string * value) :=
  match d with
  | [] => [(k, v)]
  | (k', v') :: d' =>
      if String.eqb k k' then (k, v) :: d' else (k', v') :: dict_set k v d'
  end.

(** [type(v).__name__] *)
Definition type_name (v : value) : string :=
  match v with
  | VNone => "NoneType"
  | VBool _ => "bool"
  | VInt _ => "int"
  | VStr _ => "str"
  | VList _ => "list"
  | VDict _ => "dict"
  end.

(** The classes of [Exception] that the code tells apart, and the rest. *)
Inductive exn_class : Type :=
| FileNotFoundError
| TimeoutExpired
| CalledProcessError
| AttributeError
| KeyError
| OtherException.

(** An instance of [Exception]; [exn_str] is [str(e)]. *)
Record exn : Type := mk_exn { exn_kind : exn_class; exn_str : string }.

Inductive result (A : Type) : Type :=
| Ok (a : A)
| Raise (e : exn).
Arguments Ok {A} a.
Arguments Raise {A} e.

(** [subprocess.CompletedProcess] *)
Record CompletedProcess : Type :=
  mk_proc { returncode : Z; stdout : string; stderr : string }.

(** [requests.Response]; [json] is the outcome of [response.json()]. *)
Record Response : Type :=
  mk_resp { status_code : Z; text : string; json : result value }.

Definition headers : Type := list (string * string).

(** One call that left the process, with how it ended.  Timeouts are in
    seconds; [None] is a call made without a [timeout] argument. *)
Inductive Event : Type :=
| EvRun (args : list string) (input : option string) (timeout : option Z)
        (r : result CompletedProcess)
| EvGet (url : string) (h : headers) (timeout : option Z) (r : result Response)
| EvPut (url : string) (h : headers) (body : value) (timeout : option Z)
        (r : result Response)
| EvMkdtemp (prefix : string) (r : result string)
| EvRmtree (path : string) (r : result unit)
| EvExists (path : string) (b : bool)
| EvSystem (command : string) (r : result Z)
| EvPrint (line : string) (r : result unit).

Definition Trace : Type := list Event.

(** The world answers each call; the answer may depend on everything that
    happened before. *)
Record World : Type := {
  environ : string -> option string;
  os_run : Trace -> list string -> option string -> option Z
           -> result CompletedProcess;
  http_get : Trace -> string -> headers -> option Z -> result Response;
  http_put : Trace -> string -> headers -> value -> option Z -> result Response;
  fs_mkdtemp : Trace -> string -> result string;
  fs_rmtree : Trace -> string -> result unit;
  fs_exists : Trace -> string -> bool;
  os_system : Trace -> string -> result Z;
  sys_print : Trace -> string -> result unit
}.

(** Library functions the model does not look inside: [str()] of a decoded
    JSON value, [base64.b64decode(x).decode('utf-8')] and
    [base64.b64encode(s.encode('utf-8')).decode('utf-8')]. *)
Record Builtins : Type := {
  py_str : value -> string;
  b64decode_utf8 : value -> result string;
  b64encode_utf8 : string -> result string
}.

(** ** The monad: one mutable local object, a trace, exceptions *)

Record State : Type := mk_state { local : value; trace : Trace }.

Definition M (A : Type) : Type := State -> result A * State.

Definition ret {A} (a : A) : M A := fun st => (Ok a, st).

Definition raise {A} (e : exn) : M A := fun st => (Raise e, st).

Definition bind {A B} (c : M A) (k : A -> M B) : M B :=
  fun st =>
    match c st with
    | (Ok a, st') => k a st'
    | (Raise e, st') => (Raise e, st')
    end.

Notation "x <- c ;; k" := (bind c (fun x => k))
  (at level 61, c at next level, right associativity).
Notation "c ;; k" := (bind c (fun _ => k))
  (at level 61, right associativity).

Definition get_local : M value := fun st => (Ok (local st), st).

Definition set_local (v : value) : M unit :=
  fun st => (Ok tt, mk_state v (trace st)).

(** [try: body  except ...: handler]; [handler e = None] when no [except]
    clause matches [e], which then propagates. *)
Definition try_except {A} (body : M A) (handler : exn -> option (M A)) : M A :=
  fun st =>
    match body st with
    | (Ok a, st') => (Ok a, st')
    | (Raise e, st') =>
        match handler e with
        | Some h => h st'
        | None => (Raise e, st')
        end
    end.

(** [try: body  finally: final] *)
Definition try_finally {A} (body : M A) (final : M unit) : M A :=
  fun st =>
    match body st with
    | (r, st') =>
        match final st' with
        | (Ok _, st'') => (r, st'')
        | (Raise e, st'') => (Raise e, st'')
        end
    end.

Definition log (ev : Event) (st : State) : State :=
  mk_state (local st) (trace st ++ [ev])%list.

Definition lift {A} (r : result A) : M A := fun st => (r, st).

(** ** The calls, and the five operations *)

Section Agent.

Variable w : World.
Variable lib : Builtins.

(** [str(subprocess.CalledProcessError(status, args))], for an exit status
    that is not a signal. *)
Definition called_process_error (args : list string) (status : Z) : exn :=
  mk_exn CalledProcessError
    ("Command '[" ++ String.concat ", " (map (fun a => "'" ++ a ++ "'") args)
       ++ "]' returned non-zero exit status " ++ Str.of_Z status ++ ".").

(** [subprocess.run(args, input=input, timeout=timeout, check=check)] *)
Definition subprocess_run (args : list string) (input : option string)
    (timeout : option Z) (check : bool) : M CompletedProcess :=
  fun st =>
    let r := os_run w (trace st) args input timeout in
    let st' := log (EvRun args input timeout r) st in
    match r with
    | Ok p =>
        if check && negb (returncode p =? 0)%Z
        then (Raise (called_process_error args (returncode p)), st')
        else (Ok p, st')
    | Raise e => (Raise e, st')
    end.

(** [requests.get(url, headers=h, timeout=timeout)] *)
Definition requests_get (url : string) (h : headers) (timeout : option Z)
  : M Response :=
  fun st =>
    let r := http_get w (trace st) url h timeout in
    (r, log (EvGet url h timeout r) st).

(** [requests.put(url, headers=h, json=body, timeout=timeout)] *)
Definition requests_put (url : string) (h : headers) (body : value)
    (timeout : option Z) : M Response :=
  fun st =>
    let r := http_put w (trace st) url h body timeout in
    (r, log (EvPut url h body timeout r) st).

(** [tempfile.mkdtemp(prefix=prefix)] *)
Definition mkdtemp (prefix : string) : M string :=
  fun st =>
    let r := fs_mkdtemp w (trace st) prefix in
    (r, log (EvMkdtemp prefix r) st).

(** [shutil.rmtree(path)] *)
Definition rmtree (path : string) : M unit :=
  fun st =>
    let r := fs_rmtree w (trace st) path in
    (r, log (EvRmtree path r) st).

(** [os.path.exists(path)] *)
Definition path_exists (path : string) : M bool :=
  fun st =>
    let b := fs_exists w (trace st) path in
    (Ok b, log (EvExists path b) st).

(** [os.system(command)] *)
Definition system (command : string) : M Z :=
  fun st =>
    let r := os_system w (trace st) command in
    (r, log (EvSystem command r) st).

(** [print(line)] *)
Definition print (line : string) : M unit :=
  fun st =>
    let r := sys_print w (trace st) line in
    (r, log (EvPrint line r) st).

(** [os.path.join(a, b)] on POSIX *)
Definition path_join (a b : string) : string :=
  if Str.startswith "/" b then b
  else match a with
       | EmptyString => b
       | _ => if Str.endswith_slash a then a ++ b else a ++ "/" ++ b
       end.

(** Truth value of [os.environ.get(name)] in a condition. *)
Definition truthy (v : option string) : bool :=
  match v with
  | Some (String _ _) => true
  | _ => false
  end.

(** [v.get(k, default)] *)
Definition py_get (v : value) (k : string) (default : value) : M value :=
  match v with
  | VDict d =>
      ret (match dict_get k d with Some x => x | None => default end)
  | _ =>
      raise (mk_exn AttributeError
               ("'" ++ type_name v ++ "' object has no attribute 'get'"))
  end.

(** [v[k]] for a dictionary [v] *)
Definition py_item (v : value) (k : string) : M value :=
  match v with
  | VDict d =>
      match dict_get k d with
      | Some x => ret x
      | None => raise (mk_exn KeyError ("'" ++ k ++ "'"))
      end
  | _ => raise (mk_exn OtherException
                  (type_name v ++ " indices must be integers"))
  end.

(** [local[key].append(x)], the local object being a dictionary *)
Definition append_to (key : string) (x : value) : M unit :=
  fun st =>
    match local st with
    | VDict d =>
        match dict_get key d with
        | Some (VList l) =>
            (Ok tt, mk_state (VDict (dict_set key (VList (l ++ [x])%list) d)) (trace st))
        | _ => (Raise (mk_exn KeyError ("'" ++ key ++ "'")), st)
        end
    | _ => (Raise (mk_exn OtherException "not a dictionary"), st)
    end.

(** [local[key] = x] *)
Definition assign (key : string) (x : value) : M unit :=
  fun st =>
    match local st with
    | VDict d => (Ok tt, mk_state (VDict (dict_set key x d)) (trace st))
    | _ => (Raise (mk_exn OtherException "not a dictionary"), st)
    end.

(** [local.append(x)], the local object being a list *)
Definition append_local (x : value) : M unit :=
  fun st =>
    match local st with
    | VList l => (Ok tt, mk_state (VList (l ++ [x])%list) (trace st))
    | _ => (Raise (mk_exn AttributeError "no attribute 'append'"), st)
    end.

Definition except_Exception {A} (h : exn -> M A) : exn -> option (M A) :=
  fun e => Some (h e).

Definition str (s : string) : value := VStr s.

Definition token_header (github_token : string) : string * string :=
  ("Authorization", "token " ++ github_token).

(** *** [diagnose_git_setup] *)

(** Check 1: Git installation *)
Definition check_git_installation : M unit :=
  try_except
    (git_version <- subprocess_run ["git"; "--version"] None (Some 5%Z) false ;;
     if (returncode git_version =? 0)%Z
     then append_to "checks"
            (str ("✅ Git installed: " ++ Str.strip (stdout git_version)))
     else (append_to "checks" (str "❌ Git not working properly") ;;
           append_to "recommendations"
             (str "Install Git: brew install git (macOS) or apt install git (Ubuntu)")))
    (fun e =>
       match exn_kind e with
       | FileNotFoundError =>
           Some (append_to "checks" (str "❌ Git not found") ;;
                 append_to "recommendations"
                   (str "Install Git from https://git-scm.com/"))
       | TimeoutExpired =>
           Some (append_to "checks" (str "❌ Git command timed out"))
       | _ => None
       end).

(** Check 2: GitHub token *)
Definition check_github_token : M unit :=
  let github_token := environ w "GITHUB_TOKEN" in
  if truthy github_token
  then
    append_to "checks" (str "✅ GITHUB_TOKEN environment variable found") ;;
    try_except
      (let h := [token_header (match github_token with Some t => t | None => "" end)] in
       response <- requests_get "https://api.github.com/user" h (Some 10%Z) ;;
       if (status_code response =? 200)%Z
       then
         user_data <- lift (json response) ;;
         login <- py_get user_data "login" (str "Unknown") ;;
         append_to "checks"
           (str ("✅ GitHub API access verified for user: " ++ py_str lib login))
       else
         (append_to "checks"
            (str ("❌ GitHub API access failed: " ++ Str.of_Z (status_code response))) ;;
          append_to "recommendations"
            (str "Check if GitHub token is valid and has repo scope")))
      (except_Exception (fun e =>
         append_to "checks" (str ("❌ GitHub API test failed: " ++ exn_str e))))
  else
    (append_to "checks" (str "❌ GITHUB_TOKEN not found") ;;
     append_to "recommendations"
       (str "Set GITHUB_TOKEN in .env file with a valid GitHub Personal Access Token")).

Definition nonempty (s : string) : bool :=
  match s with EmptyString => false | _ => true end.

(** Check 3: Git configuration *)
Definition check_git_configuration : M unit :=
  try_except
    (git_user <- subprocess_run ["git"; "config"; "--global"; "user.name"] None None false ;;
     git_email <- subprocess_run ["git"; "config"; "--global"; "user.email"] None None false ;;
     (if (returncode git_user =? 0)%Z && nonempty (Str.strip (stdout git_user))
      then append_to "checks" (str ("✅ Git user.name: " ++ Str.strip (stdout git_user)))
      else (append_to "checks" (str "⚠️ Git user.name not set globally") ;;
            append_to "recommendations"
              (str "Run: git config --global user.name 'Your Name'"))) ;;
     (if (returncode git_email =? 0)%Z && nonempty (Str.strip (stdout git_email))
      then append_to "checks" (str ("✅ Git user.email: " ++ Str.strip (stdout git_email)))
      else (append_to "checks" (str "⚠️ Git user.email not set globally") ;;
            append_to "recommendations"
              (str "Run: git config --global user.email 'your.email@example.com'"))))
    (except_Exception (fun e =>
       append_to "checks" (str ("❌ Git config check failed: " ++ exn_str e)))).

(** Check 4: Test directory permissions *)
Definition check_directory_permissions : M unit :=
  try_except
    (test_dir <- mkdtemp "git_test_" ;;
     append_to "checks" (str ("✅ Can create temporary directories: " ++ test_dir)) ;;
     rmtree test_dir)
    (except_Exception (fun e =>
       append_to "checks" (str ("❌ Cannot create temporary directories: " ++ exn_str e)) ;;
       append_to "recommendations" (str "Check file system permissions"))).

(** Check 5: Network connectivity to GitHub *)
Definition check_network_connectivity : M unit :=
  try_except
    (response <- requests_get "https://github.com" [] (Some 10%Z) ;;
     if (status_code response =? 200)%Z
     then append_to "checks" (str "✅ Network access to GitHub")
     else append_to "checks"
            (str ("❌ GitHub not accessible: " ++ Str.of_Z (status_code response))))
    (except_Exception (fun e =>
       append_to "checks" (str ("❌ Network connectivity issue: " ++ exn_str e)) ;;
       append_to "recommendations"
         (str "Check internet connection and firewall settings"))).

Definition diagnosis_init : value :=
  VDict [("status", str "success"); ("checks", VList []); ("recommendations", VList [])].

Definition diagnose_git_setup : M value :=
  try_except
    (set_local diagnosis_init ;;
     check_git_installation ;;
     check_github_token ;;
     check_git_configuration ;;
     check_directory_permissions ;;
     check_network_connectivity ;;
     get_local)
    (except_Exception (fun e =>
       ret (VDict [("status", str "error");
                   ("error_message", str ("Diagnostic failed: " ++ exn_str e))]))).

(** *** [test_simple_clone] *)

Definition results_init (owner repo : string) : value :=
  VDict [("status", str "testing");
         ("repository", str (owner ++ "/" ++ repo));
         ("tests", VList [])].

(** Method 1: Clone with token in URL (the [try] block and its [except]
    clauses) *)
Definition clone_with_token (github_token owner repo repo_dir : string) : M unit :=
  let clone_url_with_token :=
    "https://" ++ github_token ++ "@github.com/" ++ owner ++ "/" ++ repo ++ ".git" in
  try_except
    (print ("Testing clone of " ++ owner ++ "/" ++ repo ++ "...") ;;
     clone_result <- subprocess_run ["git"; "clone"; clone_url_with_token; repo_dir]
                       None (Some 30%Z) false ;;
     if (returncode clone_result =? 0)%Z
     then
       append_to "tests"
         (VDict [("method", str "Token in URL"); ("status", str "success");
                 ("message", str "Clone successful")]) ;;
       assign "status" (str "success") ;;
       found <- path_exists (path_join repo_dir ".git") ;;
       if found
       then append_to "tests"
              (VDict [("method", str "Repository structure"); ("status", str "success");
                      ("message", str ".git directory found")])
       else ret tt
     else
       append_to "tests"
         (VDict [("method", str "Token in URL"); ("status", str "failed");
                 ("error", str (stderr clone_result));
                 ("stdout", str (stdout clone_result))]))
    (fun e =>
       match exn_kind e with
       | TimeoutExpired =>
           Some (append_to "tests"
                   (VDict [("method", str "Token in URL"); ("status", str "timeout");
                           ("error", str "Clone operation timed out after 30 seconds")]))
       | _ =>
           Some (append_to "tests"
                   (VDict [("method", str "Token in URL"); ("status", str "error");
                           ("error", str (exn_str e))]))
       end).

Definition cleanup_warning (e : exn) : value :=
  VDict [("method", str "Cleanup"); ("status", str "warning");
         ("message", str ("Could not clean up: " ++ exn_str e))].

(** The [finally] block: Cleanup *)
Definition cleanup (temp_dir : string) : M unit :=
  try_except
    (present <- path_exists temp_dir ;;
     if present then rmtree temp_dir else ret tt)
    (except_Exception (fun e => append_to "tests" (cleanup_warning e))).

(** Method 2: Test repository access via API first *)
Definition api_access (github_token owner repo : string) : M unit :=
  try_except
    (let h := [token_header github_token] in
     let api_url := "https://api.github.com/repos/" ++ owner ++ "/" ++ repo in
     api_response <- requests_get api_url h (Some 10%Z) ;;
     if (status_code api_response =? 200)%Z
     then
       repo_data <- lift (json api_response) ;;
       private <- py_get repo_data "private" (str "unknown") ;;
       append_to "tests"
         (VDict [("method", str "API Access"); ("status", str "success");
                 ("message", str ("Repository accessible via API. Private: "
                                    ++ py_str lib private))])
     else if (status_code api_response =? 404)%Z
     then
       append_to "tests"
         (VDict [("method", str "API Access"); ("status", str "failed");
                 ("error", str "Repository not found or no access")])
     else
       append_to "tests"
         (VDict [("method", str "API Access"); ("status", str "failed");
                 ("error", str ("API returned " ++ Str.of_Z (status_code api_response)))]))
    (except_Exception (fun e =>
       append_to "tests"
         (VDict [("method", str "API Access"); ("status", str "error");
                 ("error", str (exn_str e))]))).

Definition test_simple_clone (repository_url : string) : M value :=
  try_except
    (let github_token := environ w "GITHUB_TOKEN" in
     if negb (truthy github_token)
     then ret (VDict [("status", str "error");
                      ("error_message", str "No GitHub token found");
                      ("suggestion", str "Set GITHUB_TOKEN in your .env file")])
     else
       let github_token := match github_token with Some t => t | None => "" end in
       match parse_repo repository_url with
       | None =>
           ret (VDict [("status", str "error");
                       ("error_message",
                        str ("Invalid GitHub URL format: " ++ repository_url))])
       | Some (owner, repo) =>
           set_local (results_init owner repo) ;;
           temp_dir <- mkdtemp "clone_test_" ;;
           let repo_dir := path_join temp_dir repo in
           try_finally (clone_with_token github_token owner repo repo_dir)
                       (cleanup temp_dir) ;;
           api_access github_token owner repo ;;
           get_local
       end)
    (except_Exception (fun e =>
       ret (VDict [("status", str "error");
                   ("error_message", str ("Clone test failed: " ++ exn_str e))]))).

(** *** [get_github_file] *)

Definition value_is_str (v : value) (s : string) : bool :=
  match v with VStr s' => String.eqb s' s | _ => false end.

Definition get_github_file (repository_url file_path branch : string) : M value :=
  try_except
    (let github_token := environ w "GITHUB_TOKEN" in
     if negb (truthy github_token)
     then ret (VDict [("status", str "error");
                      ("error_message",
                       str "GitHub token not found. Please set GITHUB_TOKEN in your .env file.");
                      ("instructions",
                       str "Get a token from https://github.com/settings/tokens with 'repo' scope")])
     else
       let github_token := match github_token with Some t => t | None => "" end in
       match parse_repo repository_url with
       | None =>
           ret (VDict [("status", str "error");
                       ("error_message",
                        str ("Invalid GitHub URL format: " ++ repository_url));
                       ("example", str "Use format: https://github.com/owner/repo")])
       | Some (owner, repo) =>
           let api_url :=
             "https://api.github.com/repos/" ++ owner ++ "/" ++ repo
               ++ "/contents/" ++ file_path in
           let api_url :=
             if negb (String.eqb branch "main")
             then api_url ++ "?ref=" ++ branch else api_url in
           let h := [token_header github_token;
                     ("Accept", "application/vnd.github.v3+json")] in
           response <- requests_get api_url h (Some 10%Z) ;;
           if (status_code response =? 200)%Z
           then
             data <- lift (json response) ;;
             encoding <- py_get data "encoding" VNone ;;
             content <-
               (if value_is_str encoding "base64"
                then (raw <- py_item data "content" ;;
                      decoded <- lift (b64decode_utf8 lib raw) ;;
                      ret (str decoded))
                else py_get data "content" (str "")) ;;
             size <- py_get data "size" (VInt 0) ;;
             sha <- py_get data "sha" VNone ;;
             ret (VDict [("status", str "success");
                         ("repository", str (owner ++ "/" ++ repo));
                         ("file_path", str file_path);
                         ("branch", str branch);
                         ("size", size);
                         ("content", content);
                         ("sha", sha);
                         ("message",
                          str ("Successfully read " ++ file_path ++ " from "
                                 ++ owner ++ "/" ++ repo))])
           else if (status_code response =? 404)%Z
           then
             ret (VDict [("status", str "error");
                         ("error_message",
                          str ("File not found: " ++ file_path ++ " in "
                                 ++ owner ++ "/" ++ repo));
                         ("suggestion", str "Check the file path and branch name")])
           else
             ret (VDict [("status", str "error");
                         ("error_message",
                          str ("GitHub API error: " ++ Str.of_Z (status_code response)));
                         ("details", str (Str.take 200 (text response)))])
       end)
    (except_Exception (fun e =>
       ret (VDict [("status", str "error");
                   ("error_message", str ("Unexpected error: " ++ exn_str e))]))).

(** *** [fix_git_setup] *)

(** Fix 1: Set up Git user configuration *)
Definition fix_user_configuration : M unit :=
  try_except
    (subprocess_run ["git"; "config"; "--global"; "user.name"; "AI Agent"]
       None None true ;;
     subprocess_run ["git"; "config"; "--global"; "user.email"; "ai-agent@example.com"]
       None None true ;;
     append_local (str "✅ Set Git user.name and user.email"))
    (except_Exception (fun e =>
       append_local (str ("❌ Could not set Git config: " ++ exn_str e)))).

(** Fix 2: Set up credential helper (for macOS) *)
Definition fix_credential_helper : M unit :=
  try_except
    (found <- system "which git-credential-osxkeychain" ;;
     if (found =? 0)%Z
     then
       subprocess_run ["git"; "config"; "--global"; "credential.helper"; "osxkeychain"]
         None None true ;;
       append_local (str "✅ Set Git credential helper for macOS")
     else ret tt)
    (except_Exception (fun e =>
       append_local (str ("⚠️ Could not set credential helper: " ++ exn_str e)))).

Definition newline : string := String "010" "".

(** Fix 3: Clear any cached credentials that might be wrong *)
Definition fix_cached_credentials : M unit :=
  try_except
    (subprocess_run ["git"; "credential"; "reject"]
       (Some ("host=github.com" ++ newline ++ "protocol=https" ++ newline ++ newline))
       None false ;;
     append_local (str "✅ Cleared cached credentials"))
    (except_Exception (fun e =>
       append_local (str ("⚠️ Could not clear credentials: " ++ exn_str e)))).

Definition fix_git_setup : M value :=
  try_except
    (set_local (VList []) ;;
     fix_user_configuration ;;
     fix_credential_helper ;;
     fix_cached_credentials ;;
     fixes_applied <- get_local ;;
     ret (VDict [("status", str "success");
                 ("fixes_applied", fixes_applied);
                 ("message", str "Applied common Git fixes")]))
    (except_Exception (fun e =>
       ret (VDict [("status", str "error");
                   ("error_message", str ("Fix attempt failed: " ++ exn_str e))]))).

(** *** [create_file_via_api] *)

Definition create_file_via_api
    (repository_url file_path file_content commit_message : string) : M value :=
  try_except
    (let github_token := environ w "GITHUB_TOKEN" in
     if negb (truthy github_token)
     then ret (VDict [("status", str "error");
                      ("error_message", str "GitHub token not found")])
     else
       let github_token := match github_token with Some t => t | None => "" end in
       match parse_repo repository_url with
       | None =>
           ret (VDict [("status", str "error");
                       ("error_message",
                        str ("Invalid GitHub URL format: " ++ repository_url))])
       | Some (owner, repo) =>
           let api_url :=
             "https://api.github.com/repos/" ++ owner ++ "/" ++ repo
               ++ "/contents/" ++ file_path in
           let h := [token_header github_token;
                     ("Accept", "application/vnd.github.v3+json");
                     ("Content-Type", "application/json")] in
           encoded_content <- lift (b64encode_utf8 lib file_content) ;;
           let data := VDict [("message", str commit_message);
                              ("content", str encoded_content)] in
           response <- requests_put api_url h data (Some 10%Z) ;;
           if (status_code response =? 200)%Z || (status_code response =? 201)%Z
           then
             result_data <- lift (json response) ;;
             commit <- py_get result_data "commit" (VDict []) ;;
             commit_sha <- py_get commit "sha" VNone ;;
             ret (VDict [("status", str "success");
                         ("repository", str (owner ++ "/" ++ repo));
                         ("file_path", str file_path);
                         ("commit_sha", commit_sha);
                         ("message",
                          str ("Successfully created " ++ file_path ++ " using GitHub API"));
                         ("method", str "api_only")])
           else
             ret (VDict [("status", str "error");
                         ("error_message",
                          str ("GitHub API error: " ++ Str.of_Z (status_code response)));
                         ("details", str (Str.take 200 (text response)))])
       end)
    (except_Exception (fun e =>
       ret (VDict [("status", str "error");
                   ("error_message", str ("API file creation failed: " ++ exn_str e))]))).

(** Running an operation from a fresh process state. *)
Definition run {A} (op : M A) : result A * State := op (mk_state VNone []).

End Agent.

(** ** Reading a returned record *)

Definition status_of (r : result value) : option string :=
  match r with
  | Ok (VDict d) =>
      match dict_get "status" d with
      | Some (VStr s) => Some s
      | _ => None
      end
  | _ => None
  end.

Definition field_of (k : string) (r : result value) : option value :=
  match r with
  | Ok (VDict d) => dict_get k d
  | _ => None
  end.

Definition list_field (k : string) (r : result value) : list value :=
  match field_of k r with
  | Some (VList l) => l
  | _ => []
  end.

Definition is_subprocess (ev : Event) : bool :=
  match ev with
  | EvRun _ _ _ _ | EvSystem _ _ => true
  | _ => false
  end.

Definition is_http (ev : Event) : bool :=
  match ev with
  | EvGet _ _ _ _ | EvPut _ _ _ _ _ => true
  | _ => false
  end.

(** The explicit timeout of a blocking subprocess or HTTP call. *)
Definition timeout_of (ev : Event) : option Z :=
  match ev with
  | EvRun _ _ t _ => t
  | EvGet _ _ t _ => t
  | EvPut _ _ _ t _ => t
  | _ => None
  end.

(** The clone of [test_simple_clone] ended with exit status 0. *)
Definition is_clone_success (ev : Event) : bool :=
  match ev with
  | EvRun ("git" :: "clone" :: _) _ _ (Ok p) => (returncode p =? 0)%Z
  | _ => false
  end.

(** The values a record's [status] takes. *)
Definition statuses : list string := ["success"; "error"; "testing"].

Definition status_ok (v : value) : bool :=
  match status_of (Ok v) with
  | Some s => existsb (String.eqb s) statuses
  | None => false
  end.

(** The operation returned, and what it returned is a record with a
    [status] among [statuses]. *)
Definition returns_record (o : result value * State) : bool :=
  match fst o with
  | Ok v => status_ok v
  | Raise _ => false
  end.

(** [needle in hay] *)
Fixpoint contains (needle hay : string) : bool :=
  Str.startswith needle hay ||
  match hay with
  | EmptyString => false
  | String _ t => contains needle t
  end.

(** The operation stopped with an error record carrying [message], before
    any call left the process. *)
Definition rejected_with (message : string) (o : result value * State) : Prop :=
  status_of (fst o) = Some "error"
  /\ field_of "error_message" (fst o) = Some (VStr message)
  /\ trace (snd o) = [].

(** The report of [diagnose_git_setup] while it is being built. *)
Definition diagnosis (checks recommendations : list value) : value :=
  VDict [("status", VStr "success"); ("checks", VList checks);
         ("recommendations", VList recommendations)].

(** From a report with the check lines [cs], a check leaves a report with
    [lo] to [hi] lines more. *)
Definition grows (lo hi : nat) (cs : list value) (st' : State) : Prop :=
  exists cs' rs', local st' = diagnosis cs' rs'
    /\ List.length cs + lo <= List.length cs' <= List.length cs + hi.

(** A check line whose marker denotes failure. *)
Definition is_failure (check : value) : bool :=
  match check with
  | VStr line => Str.startswith "❌" line
  | _ => false
  end.

(** The record of [test_simple_clone] while it is being built. *)
Definition results (status repository : string) (tests : list value) : value :=
  VDict [("status", VStr status); ("repository", VStr repository);
         ("tests", VList tests)].

(** A blocking subprocess or HTTP call is bounded when it is given a
    timeout of 5 to 30 seconds; other events do not block. *)
Definition bounded (ev : Event) : bool :=
  if is_subprocess ev || is_http ev
  then match timeout_of ev with
       | Some t => (5 <=? t)%Z && (t <=? 30)%Z
       | None => false
       end
  else true.

(** ** Well-formed and malformed repository URLs *)

(** [s.endswith(suf)] *)
Fixpoint endswith (suf s : string) : bool :=
  String.eqb s suf ||
  match s with
  | EmptyString => false
  | String _ t => endswith suf t
  end.

Definition not_newline (c : ascii) : bool := negb (Ascii.eqb c "010").

(** An owner and a repository name as they stand in a URL: neither is empty
    nor holds a slash; the name holds no line break and does not itself end
    in [.git]. *)
Definition well_formed (owner name : string) : bool :=
  nonempty owner && Str.all not_slash owner &&
  nonempty name && Str.all not_slash name && Str.all not_newline name &&
  negb (endswith ".git" name).

Definition protocols : list string := ["https://"; "http://"; ""].
Definition dotgits : list string := [".git"; ""].
Definition slashes : list string := ["/"; ""].

(** The URL of [owner]/[name] in one of its written forms. *)
Definition github_url (proto owner name dotgit slash : string) : string :=
  proto ++ "github.com/" ++ owner ++ "/" ++ name ++ dotgit ++ slash.

(** [s] has a slash-delimited owner and name after the host. *)
Definition has_owner_name (s : string) : Prop :=
  exists pre owner name rest,
    s = pre ++ "github.com/" ++ owner ++ "/" ++ name ++ rest
    /\ nonempty owner = true /\ Str.all not_slash owner = true
    /\ nonempty name = true /\ Str.all not_slash name = true.

(** A malformed URL lacks them. *)
Definition malformed (repository_url : string) : Prop :=
  ~ has_owner_name (strip_protocol repository_url).

(** What may follow the repository name: [(?:\.git)?/?$], the end being
    the end of the string or a final line break. *)
Definition url_tails : list string :=
  [""; newline; "/"; "/" ++ newline;
   ".git"; ".git" ++ newline; ".git/"; ".git/" ++ newline].

(** [s] ends with [github.com/owner/name] and one of [url_tails], the owner
    and the name being non-empty and free of slashes. *)
Definition ends_with_repo (s owner name : string) : Prop :=
  exists pre tl,
    s = pre ++ "github.com/" ++ owner ++ "/" ++ name ++ tl
    /\ In tl url_tails
    /\ nonempty owner = true /\ Str.all not_slash owner = true
    /\ nonempty name = true /\ Str.all not_slash name = true.

(** ** Shapes of call sequences *)

Fixpoint args_eqb (a b : list string) : bool :=
  match a, b with
  | [], [] => true
  | x :: a', y :: b' => String.eqb x y && args_eqb a' b'
  | _, _ => false
  end.

(** The event is [subprocess.run(args, ...)]. *)
Definition is_run_of (args : list string) (ev : Event) : bool :=
  match ev with
  | EvRun a _ _ _ => args_eqb a args
  | _ => false
  end.

(** The process ran and ended with exit status 0. *)
Definition process_ok (r : result CompletedProcess) : bool :=
  match r with
  | Ok p => (returncode p =? 0)%Z
  | Raise _ => false
  end.

(** An exception of [git --version] that check 1 has no [except] clause
    for. *)
Definition unexpected_failure (r : result CompletedProcess) : bool :=
  match r with
  | Ok _ => false
  | Raise e =>
      match exn_kind e with
      | FileNotFoundError | TimeoutExpired => false
      | _ => true
      end
  end.

(** The calls of check 1: [git --version], 5 seconds. *)
Definition version_probe (evs : Trace) : bool :=
  match evs with
  | [EvRun ["git"; "--version"] None (Some 5%Z) _] => true
  | _ => false
  end.

(** The calls of check 2: none without a token, else one authenticated
    request for the user, 10 seconds. *)
Definition token_probe (github_token : option string) (evs : Trace) : bool :=
  match evs with
  | [] => negb (truthy github_token)
  | [EvGet "https://api.github.com/user" [("Authorization", v)] (Some 10%Z) _] =>
      truthy github_token &&
      match github_token with
      | Some t => String.eqb v ("token " ++ t)
      | None => false
      end
  | _ => false
  end.

(** The calls of check 3: [user.name], then, unless that raised,
    [user.email]; neither has a timeout. *)
Definition config_probe (evs : Trace) : bool :=
  match evs with
  | [EvRun ["git"; "config"; "--global"; "user.name"] None None (Raise _)] => true
  | [EvRun ["git"; "config"; "--global"; "user.name"] None None (Ok _);
     EvRun ["git"; "config"; "--global"; "user.email"] None None _] => true
  | _ => false
  end.

(** The calls of check 4: a directory is asked for and, when one was made,
    that very directory is removed. *)
Definition directory_probe (evs : Trace) : bool :=
  match evs with
  | [EvMkdtemp "git_test_" (Raise _)] => true
  | [EvMkdtemp "git_test_" (Ok made); EvRmtree removed _] => String.eqb made removed
  | _ => false
  end.

(** The calls of check 5: one request for the front page, 10 seconds. *)
Definition network_probe (evs : Trace) : bool :=
  match evs with
  | [EvGet "https://github.com" [] (Some 10%Z) _] => true
  | _ => false
  end.

(** The trace ends with [git credential reject], fed the host and the
    protocol, without a timeout. *)
Definition ends_with_reject (tr : Trace) : bool :=
  match rev tr with
  | EvRun ["git"; "credential"; "reject"] (Some input) None _ :: _ =>
      String.eqb input
        ("host=github.com" ++ newline ++ "protocol=https" ++ newline ++ newline)
  | _ => false
  end.

Definition is_system (ev : Event) : bool :=
  match ev with
  | EvSystem _ _ => true
  | _ => false
  end.

(** The line of fix 1. *)
Definition identity_line (l : string) : bool :=
  String.eqb l "✅ Set Git user.name and user.email"
  || Str.startswith "❌ Could not set Git config: " l.

(** The lines of fix 2, [found] being what [os.system('which ...')] gave:
    none when the helper was not found; one when it was found, saying it was
    set or could not be set; one when looking for it raised. *)
Definition helper_lines (found : result Z) (lines : list value) : bool :=
  match found, lines with
  | Ok z, [] => negb (z =? 0)%Z
  | Ok z, [VStr l] =>
      (z =? 0)%Z
      && (String.eqb l "✅ Set Git credential helper for macOS"
          || Str.startswith "⚠️ Could not set credential helper: " l)
  | Raise _, [VStr l] => Str.startswith "⚠️ Could not set credential helper: " l
  | _, _ => false
  end.

(** The line of fix 3. *)
Definition credentials_line (l : string) : bool :=
  String.eqb l "✅ Cleared cached credentials"
  || Str.startswith "⚠️ Could not clear credentials: " l.

(** [fixes_applied]: the line of fix 1, the lines of fix 2, the line of
    fix 3, in this order. *)
Definition fixes_report (found : result Z) (fixes : list value) : bool :=
  match fixes with
  | [VStr i; VStr c] =>
      identity_line i && helper_lines found [] && credentials_line c
  | [VStr i; h; VStr c] =>
      identity_line i && helper_lines found [h] && credentials_line c
  | _ => false
  end.


(** [d.get(k, default)] on the entries of a dictionary *)
Definition get_or (k : string) (default : value) (d : list (string * value)) : value :=
  match dict_get k d with
  | Some x => x
  | None => default
  end.

(** ** Worlds to run the operations in *)

Module Fixture.

(** [str()] on scalars; containers are not printed. *)
Definition lib : Builtins := {|
  py_str := fun v =>
    match v with
    | VNone => "None"
    | VBool true => "True"
    | VBool false => "False"
    | VInt z => Str.of_Z z
    | VStr s => s
    | _ => "..."
    end;
  b64decode_utf8 := fun v =>
    match v with
    | VStr s => Ok s
    | _ => Raise (mk_exn OtherException "argument should be a bytes-like object or ASCII string")
    end;
  b64encode_utf8 := fun s => Ok s
|}.

Definition ok_json : value :=
  VDict [("login", VStr "octocat"); ("private", VBool false);
         ("encoding", VStr "base64"); ("content", VStr "aGVsbG8="); ("size", VInt 5);
         ("sha", VStr "b6fc4c62"); ("commit", VDict [("sha", VStr "7638417d")])].

(** Everything works: a token is set, every process exits with status 0,
    every request is answered 200, the file system obeys. *)
Definition healthy : World := {|
  environ := fun name => if String.eqb name "GITHUB_TOKEN" then Some "ghp_token" else None;
  os_run := fun _ _ _ _ => Ok (mk_proc 0 "git version 2.40.0" "");
  http_get := fun _ _ _ _ => Ok (mk_resp 200 "{}" (Ok ok_json));
  http_put := fun _ _ _ _ _ => Ok (mk_resp 201 "{}" (Ok ok_json));
  fs_mkdtemp := fun _ prefix => Ok ("/tmp/" ++ prefix ++ "x1");
  fs_rmtree := fun _ _ => Ok tt;
  fs_exists := fun _ _ => true;
  os_system := fun _ _ => Ok 256%Z;
  sys_print := fun _ _ => Ok tt
|}.

(** As [healthy], without [GITHUB_TOKEN]. *)
Definition no_token : World := {|
  environ := fun _ => None;
  os_run := os_run healthy;
  http_get := http_get healthy;
  http_put := http_put healthy;
  fs_mkdtemp := fs_mkdtemp healthy;
  fs_rmtree := fs_rmtree healthy;
  fs_exists := fs_exists healthy;
  os_system := os_system healthy;
  sys_print := sys_print healthy
|}.

(** As [healthy], but no temporary directory can be created. *)
Definition no_tmp : World := {|
  environ := environ healthy;
  os_run := os_run healthy;
  http_get := http_get healthy;
  http_put := http_put healthy;
  fs_mkdtemp := fun _ _ => Raise (mk_exn OtherException "[Errno 28] No space left on device");
  fs_rmtree := fs_rmtree healthy;
  fs_exists := fs_exists healthy;
  os_system := os_system healthy;
  sys_print := sys_print healthy
|}.

(** As [healthy], but [git --version] does not answer within its 5 seconds. *)
Definition git_hangs : World := {|
  environ := environ healthy;
  os_run := fun _ args _ timeout =>
    match args, timeout with
    | ["git"; "--version"], Some t =>
        Raise (mk_exn TimeoutExpired
                 ("Command '['git', '--version']' timed out after " ++ Str.of_Z t ++ " seconds"))
    | _, _ => Ok (mk_proc 0 "AI Agent" "")
    end;
  http_get := http_get healthy;
  http_put := http_put healthy;
  fs_mkdtemp := fs_mkdtemp healthy;
  fs_rmtree := fs_rmtree healthy;
  fs_exists := fs_exists healthy;
  os_system := os_system healthy;
  sys_print := sys_print healthy
|}.

(** As [healthy], but the cloned directory cannot be removed. *)
Definition sticky_tmp : World := {|
  environ := environ healthy;
  os_run := os_run healthy;
  http_get := http_get healthy;
  http_put := http_put healthy;
  fs_mkdtemp := fs_mkdtemp healthy;
  fs_rmtree := fun _ _ => Raise (mk_exn OtherException "[Errno 13] Permission denied");
  fs_exists := fs_exists healthy;
  os_system := os_system healthy;
  sys_print := sys_print healthy
|}.

(** As [healthy], but every request is answered 500 with a body of 300
    characters of two bytes each. *)
Definition server_error : World := {|
  environ := environ healthy;
  os_run := os_run healthy;
  http_get := fun _ _ _ _ =>
    Ok (mk_resp 500 (String.concat "" (repeat "é" 300))
          (Raise (mk_exn OtherException "Expecting value: line 1 column 1 (char 0)")));
  http_put := fun _ _ _ _ _ =>
    Ok (mk_resp 500 (String.concat "" (repeat "é" 300))
          (Raise (mk_exn OtherException "Expecting value: line 1 column 1 (char 0)")));
  fs_mkdtemp := fs_mkdtemp healthy;
  fs_rmtree := fs_rmtree healthy;
  fs_exists := fs_exists healthy;
  os_system := os_system healthy;
  sys_print := sys_print healthy
|}.

(** As [healthy], but every process ends with exit status 1. *)
Definition git_broken : World := {|
  environ := environ healthy;
  os_run := fun _ _ _ _ => Ok (mk_proc 1 "" "fatal: unable to access");
  http_get := http_get healthy;
  http_put := http_put healthy;
  fs_mkdtemp := fs_mkdtemp healthy;
  fs_rmtree := fs_rmtree healthy;
  fs_exists := fs_exists healthy;
  os_system := os_system healthy;
  sys_print := sys_print healthy
|}.

End Fixture.

(** * Properties *)

(** ** Strings *)

Lemma append_assoc (a b c : string) : (a ++ b) ++ c = a ++ b ++ c.
Proof. induction a as [|x a IH]; simpl; [reflexivity | now rewrite IH]. Qed.

Lemma append_nil_r (a : string) : a ++ "" = a.
Proof. induction a as [|x a IH]; simpl; [reflexivity | now rewrite IH]. Qed.

Lemma length_append (a b : string) :
  String.length (a ++ b) = String.length a + String.length b.
Proof. induction a as [|x a IH]; simpl; [reflexivity | now rewrite IH]. Qed.

Lemma append_eq_self (q s : string) : q ++ s = s -> q = "".
Proof.
  intros H. apply (f_equal String.length) in H. rewrite length_append in H.
  destruct q; [reflexivity | simpl in H; lia].
Qed.

Lemma all_app p (a b : string) : Str.all p (a ++ b) = Str.all p a && Str.all p b.
Proof.
  induction a as [|x a IH]; simpl; [reflexivity |].
  now rewrite IH, andb_assoc.
Qed.

Lemma strip_prefix_app (l s : string) : Str.strip_prefix l (l ++ s) = Some s.
Proof.
  induction l as [|x l IH]; simpl; [reflexivity |].
  now rewrite Ascii.eqb_refl.
Qed.

Lemma strip_prefix_inv (l s t : string) :
  Str.strip_prefix l s = Some t -> s = l ++ t.
Proof.
  revert s. induction l as [|x l IH]; simpl; intros s H.
  - now injection H.
  - destruct s as [|y s]; [discriminate |].
    destruct (Ascii.eqb_spec x y); [| discriminate].
    subst. f_equal. now apply IH.
Qed.

Lemma endswith_app (suf p : string) : endswith suf (p ++ suf) = true.
Proof.
  induction p as [|x p IH]; simpl.
  - destruct suf; simpl; rewrite ?Ascii.eqb_refl, ?String.eqb_refl; reflexivity.
  - rewrite IH. apply orb_true_r.
Qed.

Lemma take_chars (n : nat) (s : string) : Str.chars (Str.take n s) <= n.
Proof.
  revert n. induction s as [|c s IH]; intros n; simpl; [lia |].
  destruct (Str.is_continuation c) eqn:E.
  - simpl. rewrite E. specialize (IH n). lia.
  - destruct n as [|n]; simpl; [lia |].
    rewrite E. specialize (IH n). lia.
Qed.

Lemma take_prefix (n : nat) (s : string) : exists rest, s = Str.take n s ++ rest.
Proof.
  revert n. induction s as [|c s IH]; intros n; simpl.
  - exists "". reflexivity.
  - destruct (Str.is_continuation c).
    + destruct (IH n) as [rest E]. exists rest. simpl. now rewrite <- E.
    + destruct n as [|n].
      * exists (String c s). reflexivity.
      * destruct (IH n) as [rest E]. exists rest. simpl. now rewrite <- E.
Qed.

(** *** Segments between slashes *)

Lemma segs_not_nil (s : string) : Str.segs s <> [].
Proof.
  induction s as [|c s IH]; simpl; [discriminate |].
  destruct (Ascii.eqb c "/"); [discriminate |].
  destruct (Str.segs s); [contradiction | discriminate].
Qed.

Lemma segs_slash (x y : string) :
  Str.segs (x ++ String "/" y) = (Str.segs x ++ Str.segs y)%list.
Proof.
  induction x as [|c x IH]; simpl; [reflexivity |].
  rewrite IH. destruct (Ascii.eqb c "/"); [reflexivity |].
  destruct (Str.segs x) eqn:E; [now apply segs_not_nil in E | reflexivity].
Qed.

Lemma segs_app_noslash (n y : string) :
  Str.all not_slash n = true ->
  Str.segs (n ++ y) =
  match Str.segs y with
  | h :: r => (n ++ h) :: r
  | [] => [n]
  end.
Proof.
  induction n as [|c n IH]; simpl; intros H.
  - destruct (Str.segs y) eqn:E; [now apply segs_not_nil in E | reflexivity].
  - apply andb_prop in H as [Hc Hn]. unfold not_slash in Hc.
    apply negb_true_iff in Hc. rewrite Hc, (IH Hn).
    destruct (Str.segs y); reflexivity.
Qed.

Lemma segs_noslash (n : string) : Str.all not_slash n = true -> Str.segs n = [n].
Proof.
  intros H. rewrite <- (append_nil_r n) at 1.
  rewrite (segs_app_noslash n "" H). simpl. now rewrite append_nil_r.
Qed.

Lemma segs_single (s h : string) : Str.segs s = [h] -> s = h.
Proof.
  revert h. induction s as [|c s IH]; simpl; intros h H.
  - now injection H.
  - destruct (Ascii.eqb c "/").
    + injection H as _ H. now apply segs_not_nil in H.
    + destruct (Str.segs s) as [|h' r] eqn:E; [now apply segs_not_nil in E |].
      injection H as H1 H2. subst. f_equal. now apply IH.
Qed.

(** ** The matcher *)

Lemma flat_map_map {A B C} (f : B -> list C) (g : A -> B) (l : list A) :
  flat_map f (map g l) = flat_map (fun x => f (g x)) l.
Proof. induction l as [|x l IH]; simpl; [reflexivity | now rewrite IH]. Qed.

Lemma in_spans cls (s a r : string) :
  In (a, r) (Re.spans cls s) -> s = a ++ r /\ nonempty a = true /\ Str.all cls a = true.
Proof.
  revert a r. induction s as [|c s IH]; simpl; intros a r H; [contradiction |].
  destruct (cls c) eqn:Hc; [| contradiction].
  destruct H as [H | H].
  - injection H as <- <-. simpl. now rewrite Hc.
  - apply in_map_iff in H as [[a' r'] [E H]]. simpl in E. injection E as <- <-.
    apply IH in H as (-> & _ & Ha). simpl. now rewrite Hc, Ha.
Qed.

(** The longest run comes last. *)
Lemma spans_longest cls (o : string) (c : ascii) (r : string) :
  Str.all cls o = true -> nonempty o = true -> cls c = false ->
  exists l, Re.spans cls (o ++ String c r) = (l ++ [(o, String c r)])%list.
Proof.
  induction o as [|d o IH]; simpl; intros Ha Hn Hc; [discriminate |].
  apply andb_prop in Ha as [Hd Ho]. rewrite Hd.
  destruct o as [|e o].
  - simpl. rewrite Hc. now exists [].
  - destruct (IH Ho eq_refl Hc) as [l Hl]. rewrite Hl.
    exists ((String d "", String e o ++ String c r) ::
            map (fun ar => (String d (fst ar), snd ar)) l).
    simpl. now rewrite map_app.
Qed.

(** The first run, shortest first, after which [k] has something to offer
    is the whole of [n] when [k] offers nothing after a shorter one. *)
Lemma spans_first {X} cls (k : string * string -> list X) (n sfx : string) :
  Str.all cls n = true -> nonempty n = true ->
  (forall a t, n = a ++ t -> nonempty a = true -> nonempty t = true ->
               k (a, t ++ sfx) = []) ->
  exists l, flat_map k (Re.spans cls (n ++ sfx)) = (k (n, sfx) ++ l)%list.
Proof.
  revert k. induction n as [|c n IH]; intros k Ha Hn Hk; [discriminate |].
  simpl in Ha. apply andb_prop in Ha as [Hc Ha].
  change (String c n ++ sfx) with (String c (n ++ sfx)).
  cbn [Re.spans]. rewrite Hc. cbn [flat_map]. rewrite flat_map_map.
  destruct n as [|d n].
  - cbn [append fst snd]. eauto.
  - rewrite (Hk (String c "") (String d n) eq_refl eq_refl eq_refl).
    destruct (IH (fun ar => k (String c (fst ar), snd ar)) Ha eq_refl) as [l Hl].
    + intros a t E Hna Hnt. cbn [fst snd].
      apply Hk; [now rewrite E | reflexivity | assumption].
    + cbn [fst snd] in *. rewrite Hl. cbn [app]. eauto.
Qed.

Lemma matches_seq_lit (l : string) r2 (x : string) :
  Re.matches (Re.Seq (Re.Lit l) r2) (l ++ x) =
  map (fun y => Re.mk (Re.groups y) (l ++ Re.consumed y) (Re.rest y)) (Re.matches r2 x).
Proof. simpl. rewrite strip_prefix_app. simpl. now rewrite app_nil_r. Qed.

Lemma matches_seq_greedy cls r2 (o : string) (c : ascii) (r : string) y ys :
  Str.all cls o = true -> nonempty o = true -> cls c = false ->
  Re.matches r2 (String c r) = y :: ys ->
  exists l,
    Re.matches (Re.Seq (Re.Group (Re.Plus cls true)) r2) (o ++ String c r) =
    Re.mk (o :: Re.groups y) (o ++ Re.consumed y) (Re.rest y) :: l.
Proof.
  intros Ha Hn Hc Hy. simpl.
  destruct (spans_longest cls o c r Ha Hn Hc) as [l Hl]. rewrite Hl.
  rewrite rev_app_distr. simpl. rewrite Hy. simpl. eauto.
Qed.

Lemma matches_seq_lazy cls r2 (n sfx : string) y ys :
  Str.all cls n = true -> nonempty n = true ->
  (forall a t, n = a ++ t -> nonempty a = true -> nonempty t = true ->
               Re.matches r2 (t ++ sfx) = []) ->
  Re.matches r2 sfx = y :: ys ->
  exists l,
    Re.matches (Re.Seq (Re.Group (Re.Plus cls false)) r2) (n ++ sfx) =
    Re.mk (n :: Re.groups y) (n ++ Re.consumed y) (Re.rest y) :: l.
Proof.
  intros Ha Hn Hk Hy. simpl. rewrite !flat_map_map. simpl.
  destruct (spans_first cls
              (fun ar => map (fun y0 => Re.mk (fst ar :: Re.groups y0)
                                          (fst ar ++ Re.consumed y0) (Re.rest y0))
                           (Re.matches r2 (snd ar))) n sfx Ha Hn) as [l Hl].
  - intros a t E Hna Hnt. simpl. now rewrite (Hk a t E Hna Hnt).
  - rewrite Hl. simpl. rewrite Hy. simpl. eauto.
Qed.

Lemma search_here r (s : string) x l :
  Re.matches r s = x :: l -> Re.search r s = Some (Re.groups x).
Proof. intros H. destruct s; simpl; now rewrite H. Qed.

Lemma search_skip r (pre s : string) :
  (forall q t, pre = q ++ t -> nonempty t = true -> Re.matches r (t ++ s) = []) ->
  Re.search r (pre ++ s) = Re.search r s.
Proof.
  induction pre as [|c pre IH]; simpl; intros H; [reflexivity |].
  change (String c (pre ++ s)) with (String c pre ++ s).
  rewrite (H "" (String c pre) eq_refl eq_refl).
  apply IH. intros q t E Ht. apply (H (String c q) t); [now rewrite E | assumption].
Qed.

(** *** What a match looks like *)

Lemma in_matches_seq r1 r2 (s : string) x :
  In x (Re.matches (Re.Seq r1 r2) s) ->
  exists x1 x2,
    In x1 (Re.matches r1 s) /\ In x2 (Re.matches r2 (Re.rest x1)) /\
    x = Re.mk (Re.groups x1 ++ Re.groups x2)%list
              (Re.consumed x1 ++ Re.consumed x2) (Re.rest x2).
Proof.
  simpl. intros H. apply in_flat_map in H as [x1 [H1 H]].
  apply in_map_iff in H as [x2 [E H2]]. eauto.
Qed.

Lemma in_matches_lit (l s : string) x :
  In x (Re.matches (Re.Lit l) s) -> x = Re.mk [] l (Re.rest x) /\ s = l ++ Re.rest x.
Proof.
  simpl. destruct (Str.strip_prefix l s) eqn:E; [| contradiction].
  intros [<- | []]. simpl. split; [reflexivity | now apply strip_prefix_inv].
Qed.

Lemma in_matches_group_plus cls g (s : string) x :
  In x (Re.matches (Re.Group (Re.Plus cls g)) s) ->
  exists a, x = Re.mk [a] a (Re.rest x) /\ s = a ++ Re.rest x
            /\ nonempty a = true /\ Str.all cls a = true.
Proof.
  simpl. rewrite map_map. simpl. intros H.
  apply in_map_iff in H as [[a r] [<- H]]. simpl.
  assert (H' : In (a, r) (Re.spans cls s)).
  { destruct g; [now apply in_rev in H | assumption]. }
  apply in_spans in H' as (E & Hn & Ha). eauto.
Qed.

Lemma in_matches_opt_lit (l s : string) x :
  In x (Re.matches (Re.Opt (Re.Lit l)) s) ->
  (x = Re.mk [] l (Re.rest x) /\ s = l ++ Re.rest x) \/ x = Re.mk [] "" s.
Proof.
  intros H. change (In x (Re.matches (Re.Lit l) s ++ [Re.mk [] "" s])%list) in H.
  apply in_app_or in H as [H | [<- | []]].
  - left. now apply in_matches_lit.
  - now right.
Qed.

Lemma in_matches_end (s : string) x :
  In x (Re.matches Re.EndOfString s) -> x = Re.mk [] "" s /\ (s = "" \/ s = newline).
Proof.
  simpl. unfold Re.at_end.
  destruct (String.eqb_spec s ""); simpl.
  - intros [<- | []]. auto.
  - destruct (String.eqb_spec s (String "010" "")); simpl; [| contradiction].
    intros [<- | []]. auto.
Qed.

(** What [(?:\.git)?/?$] matches. *)
Lemma in_matches_url_tail (s : string) x :
  In x (Re.matches url_tail s) ->
  exists g sl e,
    s = g ++ sl ++ e /\ (g = ".git" \/ g = "") /\ (sl = "/" \/ sl = "")
    /\ (e = "" \/ e = newline).
Proof.
  unfold url_tail. intros H.
  apply in_matches_seq in H as (x1 & x2 & H1 & H2 & _).
  apply in_matches_seq in H2 as (x3 & x4 & H3 & H4 & _).
  apply in_matches_end in H4 as [_ He].
  apply in_matches_opt_lit in H1, H3.
  destruct H1 as [[E1 S1] | E1]; destruct H3 as [[E3 S3] | E3].
  - exists ".git", "/", (Re.rest x3). rewrite S1 at 1. rewrite S3 at 1. auto.
  - exists ".git", "", (Re.rest x3). rewrite S1 at 1. rewrite E3 at 1. simpl.
    rewrite E3 in He. simpl in He. rewrite E3. simpl. auto.
  - exists "", "/", (Re.rest x3). rewrite E1 in S3. simpl in S3. auto.
  - exists "", "", (Re.rest x3). rewrite E3 in *. rewrite E1 in *. simpl in *. auto.
Qed.

(** What [url_pattern] matches, and what it captures. *)
Lemma in_matches_url_pattern (s : string) x :
  In x (Re.matches url_pattern s) ->
  exists o n tl,
    s = "github.com/" ++ o ++ "/" ++ n ++ tl
    /\ nonempty o = true /\ Str.all not_slash o = true
    /\ nonempty n = true /\ Str.all not_slash n = true
    /\ (exists y, In y (Re.matches url_tail tl))
    /\ Re.groups x = [o; n].
Proof.
  unfold url_pattern. intros H.
  apply in_matches_seq in H as (x1 & x2 & H1 & H2 & ->).
  apply in_matches_lit in H1 as [E1 S1].
  apply in_matches_seq in H2 as (x3 & x4 & H3 & H4 & ->).
  apply in_matches_group_plus in H3 as (o & E3 & S3 & Hno & Hao).
  apply in_matches_seq in H4 as (x5 & x6 & H5 & H6 & ->).
  apply in_matches_lit in H5 as [E5 S5].
  apply in_matches_seq in H6 as (x7 & x8 & H7 & H8 & ->).
  apply in_matches_group_plus in H7 as (n & E7 & S7 & Hnn & Han).
  assert (G8 : Re.groups x8 = []).
  { unfold url_tail in H8.
    apply in_matches_seq in H8 as (a & b & Ha & Hb & ->).
    apply in_matches_seq in Hb as (c & d & Hc & Hd & ->).
    apply in_matches_end in Hd as [-> _].
    apply in_matches_opt_lit in Ha, Hc.
    destruct Ha as [[-> _] | ->]; destruct Hc as [[-> _] | ->]; reflexivity. }
  exists o, n, (Re.rest x7). repeat split; try assumption.
  - rewrite S1, S3, S5, S7 at 1. reflexivity.
  - eauto.
  - simpl. rewrite E1, E3, E5, E7, G8. reflexivity.
Qed.

(** ** The URL parser on well-formed URLs *)

Lemma well_formed_inv (owner name : string) :
  well_formed owner name = true ->
  nonempty owner = true /\ Str.all not_slash owner = true /\
  nonempty name = true /\ Str.all not_slash name = true /\
  Str.all not_newline name = true /\ endswith ".git" name = false.
Proof.
  unfold well_formed. intros H.
  repeat (apply andb_prop in H as [H ?]).
  rewrite negb_true_iff in *. auto 10.
Qed.

Ltac peel t H :=
  destruct t as [|? t]; simpl in H;
  [ | first [ discriminate H | injection H as -> H ] ].

(** After a proper, non-empty beginning of a well-formed name, what is left
    of the URL is not something [(?:\.git)?/?$] matches. *)
Lemma url_tail_not_inside (a t dotgit slash : string) :
  nonempty t = true ->
  Str.all not_slash t = true -> Str.all not_newline t = true ->
  endswith ".git" (a ++ t) = false ->
  In dotgit dotgits -> In slash slashes ->
  Re.matches url_tail (t ++ dotgit ++ slash) = [].
Proof.
  intros Hn Hs Hl He Hd Hsl.
  destruct (Re.matches url_tail (t ++ dotgit ++ slash)) as [|x l] eqn:E; [reflexivity |].
  exfalso.
  assert (Hx : In x (Re.matches url_tail (t ++ dotgit ++ slash)))
    by (rewrite E; now left).
  clear E. apply in_matches_url_tail in Hx as (g & sl & e & H & Hg & Hsl' & He').
  unfold newline in He'.
  assert (T : t = ".git" \/ t = "" \/ Str.all not_slash t = false
              \/ Str.all not_newline t = false).
  { clear Hn Hs Hl He.
    simpl in Hd, Hsl.
    destruct Hd as [<- | [<- | []]]; destruct Hsl as [<- | [<- | []]];
      destruct Hg as [-> | ->]; destruct Hsl' as [-> | ->]; destruct He' as [-> | ->];
      simpl in H;
      do 7 (try (peel t H)); try discriminate H; simpl; auto. }
  destruct T as [-> | [-> | [T | T]]].
  - rewrite endswith_app in He. discriminate.
  - discriminate.
  - rewrite T in Hs. discriminate.
  - rewrite T in Hl. discriminate.
Qed.

Lemma url_tail_matches (dotgit slash : string) :
  In dotgit dotgits -> In slash slashes ->
  exists y ys, Re.matches url_tail (dotgit ++ slash) = y :: ys /\ Re.groups y = [].
Proof.
  simpl. intros [<- | [<- | []]] [<- | [<- | []]]; vm_compute; eauto.
Qed.

(** At the start of [github.com/owner/name] the pattern matches, and what it
    reports first are [owner] and [name]. *)
Lemma url_pattern_head (owner name dotgit slash : string) :
  well_formed owner name = true ->
  In dotgit dotgits -> In slash slashes ->
  exists x l,
    Re.matches url_pattern (github_url "" owner name dotgit slash) = x :: l
    /\ Re.groups x = [owner; name].
Proof.
  intros W Hd Hs. apply well_formed_inv in W as (Hno & Hao & Hnn & Han & Hln & Hg).
  destruct (url_tail_matches dotgit slash Hd Hs) as (y & ys & Hy & Gy).
  destruct (matches_seq_lazy not_slash url_tail name (dotgit ++ slash) y ys Han Hnn)
    as [l1 H1]; [| exact Hy |].
  { intros a t E Ha Ht. rewrite E, all_app in Han, Hln.
    apply andb_prop in Han as [_ Han]. apply andb_prop in Hln as [_ Hln].
    apply (url_tail_not_inside a t); try assumption. now rewrite <- E. }
  set (r3 := Re.Seq (Re.Lit "/") (Re.Seq (Re.Group (Re.Plus not_slash false)) url_tail)).
  change (Re.matches url_pattern (github_url "" owner name dotgit slash))
    with (Re.matches (Re.Seq (Re.Lit "github.com/")
                        (Re.Seq (Re.Group (Re.Plus not_slash true)) r3))
            ("github.com/" ++ owner ++ "/" ++ name ++ dotgit ++ slash)).
  rewrite matches_seq_lit.
  assert (H3 : exists l3,
             Re.matches r3 (String "/" (name ++ dotgit ++ slash)) =
             Re.mk (name :: Re.groups y) ("/" ++ name ++ Re.consumed y) (Re.rest y) :: l3).
  { unfold r3. change (String "/" (name ++ dotgit ++ slash))
      with ("/" ++ name ++ dotgit ++ slash).
    rewrite matches_seq_lit, H1. cbn [map Re.groups Re.consumed Re.rest]. eauto. }
  destruct H3 as [l3 H3].
  destruct (matches_seq_greedy not_slash r3 owner "/" (name ++ dotgit ++ slash)
              _ _ Hao Hno eq_refl H3) as [l2 H2].
  change (owner ++ "/" ++ name ++ dotgit ++ slash)
    with (owner ++ String "/" (name ++ dotgit ++ slash)).
  rewrite H2. cbn [map Re.groups Re.consumed Re.rest].
  eexists _, _. split; [reflexivity |]. cbn [Re.groups]. now rewrite Gy.
Qed.

(** No match of the pattern starts before the host: a match takes in the
    whole rest of the string, which then has too many slashes. *)
Lemma url_pattern_not_before (q owner name dotgit slash : string) :
  nonempty q = true ->
  well_formed owner name = true ->
  In dotgit dotgits -> In slash slashes ->
  Re.matches url_pattern (q ++ github_url "" owner name dotgit slash) = [].
Proof.
  intros Hq W Hd Hs. apply well_formed_inv in W as (Hno & Hao & Hnn & Han & Hln & _).
  destruct (Re.matches url_pattern _) as [|x l] eqn:E; [reflexivity |]. exfalso.
  assert (Hx : In x (Re.matches url_pattern (q ++ github_url "" owner name dotgit slash)))
    by (rewrite E; now left).
  clear E.
  apply in_matches_url_pattern in Hx
    as (o & n & tl & H & Hno' & Hao' & Hnn' & Han' & [y Hy] & _).
  apply in_matches_url_tail in Hy as (g & sl & e & -> & Hg & Hsl & He).
  apply (f_equal Str.segs) in H.
  replace (q ++ github_url "" owner name dotgit slash)
    with ((q ++ "github.com") ++ String "/" (owner ++ String "/" (name ++ dotgit ++ slash)))
    in H by (now rewrite append_assoc).
  change ("github.com/" ++ o ++ "/" ++ n ++ g ++ sl ++ e)
    with ("github.com" ++ String "/" (o ++ String "/" (n ++ g ++ sl ++ e))) in H.
  rewrite !segs_slash in H.
  rewrite (segs_noslash owner Hao), (segs_noslash o Hao') in H.
  rewrite (segs_app_noslash name _ Han), (segs_app_noslash n _ Han') in H.
  destruct (Str.segs (q ++ "github.com")) as [|h0 L] eqn:EL;
    [now apply segs_not_nil in EL |].
  unfold newline in He. simpl in Hd, Hs.
  assert (C : L = [] \/ (exists c, name ++ dotgit = String "010" c \/ name ++ dotgit = "")).
  { destruct L as [|h1 [|h2 L]]; [now left | right | exfalso];
    destruct Hd as [<- | [<- | []]]; destruct Hs as [<- | [<- | []]];
      destruct Hg as [-> | ->]; destruct Hsl as [-> | ->]; destruct He as [-> | ->];
      simpl in H; try discriminate H;
      injection H as _ _ _ H4; rewrite ?append_nil_r in H4;
      try (exists ""; rewrite H4; auto; fail); try discriminate;
      apply (f_equal (@List.length string)) in H4;
      rewrite ?List.length_app in H4; simpl in H4; lia. }
  destruct C as [-> | [c [C | C]]].
  - assert (h0 = "github.com").
    { destruct (Str.segs (dotgit ++ slash)), (Str.segs (g ++ sl ++ e));
        simpl in H; now injection H. }
    subst h0. apply segs_single in EL. apply append_eq_self in EL.
    subst q. discriminate.
  - destruct name as [|d name]; [discriminate |]. simpl in C. injection C as -> _.
    simpl in Hln. discriminate.
  - destruct name; discriminate.
Qed.

Lemma search_well_formed (pre owner name dotgit slash : string) :
  well_formed owner name = true ->
  In dotgit dotgits -> In slash slashes ->
  Re.search url_pattern (pre ++ github_url "" owner name dotgit slash)
  = Some [owner; name].
Proof.
  intros W Hd Hs. rewrite search_skip.
  - destruct (url_pattern_head owner name dotgit slash W Hd Hs) as (x & l & E & G).
    rewrite (search_here _ _ _ _ E). now rewrite G.
  - intros q t _ Ht. now apply url_pattern_not_before.
Qed.

(** *** Removing the protocol *)

Lemma has_dslash_tail (c : ascii) (t : string) :
  Str.has_dslash (String c t) = false -> Str.has_dslash t = false.
Proof.
  simpl. destruct t; [reflexivity |]. intros H. now apply orb_false_elim in H as [_ H].
Qed.

Lemma replace_id (old new s : string) :
  (forall r, Str.has_dslash (old ++ r) = true) ->
  Str.has_dslash s = false -> Str.replace old new s = s.
Proof.
  intros Hold. unfold Str.replace. induction s as [|c s IH]; intros H; [reflexivity |].
  cbn [Str.replace_from]. unfold Str.startswith.
  destruct (Str.strip_prefix old (String c s)) eqn:E.
  - apply strip_prefix_inv in E. rewrite E, Hold in H. discriminate.
  - f_equal. apply IH. now apply has_dslash_tail in H.
Qed.

Lemma has_dslash_noslash_app (x y : string) :
  Str.all not_slash x = true -> Str.has_dslash (x ++ y) = Str.has_dslash y.
Proof.
  induction x as [|c x IH]; intros H; [reflexivity |].
  simpl in H. apply andb_prop in H as [Hc Hx].
  unfold not_slash in Hc. apply negb_true_iff in Hc.
  rewrite <- (IH Hx). simpl. rewrite Hc. simpl.
  destruct (x ++ y); reflexivity.
Qed.

Lemma has_dslash_slash_name (x y : string) :
  nonempty x = true -> Str.all not_slash x = true ->
  Str.has_dslash (String "/" (x ++ y)) = Str.has_dslash y.
Proof.
  intros Hn Ha. rewrite <- (has_dslash_noslash_app x y Ha).
  destruct x as [|c x]; [discriminate |].
  simpl in Ha. apply andb_prop in Ha as [Hc _].
  unfold not_slash in Hc. apply negb_true_iff in Hc.
  cbn [append Str.has_dslash]. now rewrite Hc.
Qed.

Lemma github_url_no_dslash (owner name dotgit slash : string) :
  well_formed owner name = true ->
  In dotgit dotgits -> In slash slashes ->
  Str.has_dslash (github_url "" owner name dotgit slash) = false.
Proof.
  intros W Hd Hs. apply well_formed_inv in W as (Hno & Hao & Hnn & Han & _).
  change (github_url "" owner name dotgit slash)
    with ("github.com" ++ String "/" (owner ++ String "/" (name ++ dotgit ++ slash))).
  rewrite (has_dslash_noslash_app "github.com") by reflexivity.
  rewrite (has_dslash_slash_name owner _ Hno Hao).
  rewrite (has_dslash_slash_name name _ Hnn Han).
  simpl in Hd, Hs.
  destruct Hd as [<- | [<- | []]]; destruct Hs as [<- | [<- | []]]; reflexivity.
Qed.

Lemma strip_protocol_github_url (proto owner name dotgit slash : string) :
  well_formed owner name = true ->
  In proto protocols -> In dotgit dotgits -> In slash slashes ->
  strip_protocol (github_url proto owner name dotgit slash)
  = github_url "" owner name dotgit slash.
Proof.
  intros W Hp Hd Hs.
  pose proof (github_url_no_dslash owner name dotgit slash W Hd Hs) as D.
  change (github_url proto owner name dotgit slash)
    with (proto ++ github_url "" owner name dotgit slash).
  generalize dependent (github_url "" owner name dotgit slash). intros b D.
  assert (Hs1 : Str.replace "https://" "" b = b) by (now apply replace_id).
  assert (Hs2 : Str.replace "http://" "" b = b) by (now apply replace_id).
  unfold strip_protocol. simpl in Hp. destruct Hp as [<- | [<- | [<- | []]]].
  - change (Str.replace "https://" "" ("https://" ++ b))
      with (Str.replace "https://" "" b).
    now rewrite Hs1, Hs2.
  - change (Str.replace "https://" "" ("http://" ++ b))
      with ("http://" ++ Str.replace "https://" "" b).
    rewrite Hs1.
    change (Str.replace "http://" "" ("http://" ++ b))
      with (Str.replace "http://" "" b).
    exact Hs2.
  - change ("" ++ b) with b. now rewrite Hs1, Hs2.
Qed.

(** ** Claims about the URL parser *)

(** C3. For a well-formed owner and repository name, [parse_repo] returns
    the same pair (owner, name) for every written form of the URL: with
    [https://], with [http://] or with no protocol, with or without a
    trailing [.git], with or without a trailing slash. *)
Theorem parse_repo_same_pair (proto owner name dotgit slash : string) :
  well_formed owner name = true ->
  In proto protocols -> In dotgit dotgits -> In slash slashes ->
  parse_repo (github_url proto owner name dotgit slash) = Some (owner, name).
Proof.
  intros W Hp Hd Hs. unfold parse_repo.
  rewrite (strip_protocol_github_url proto owner name dotgit slash W Hp Hd Hs).
  change (github_url "" owner name dotgit slash)
    with ("" ++ github_url "" owner name dotgit slash).
  now rewrite (search_well_formed "" owner name dotgit slash W Hd Hs).
Qed.

Lemma parse_repo_same_pair_witness :
  well_formed "acme" "widgets" = true /\
  In "http://" protocols /\ In ".git" dotgits /\ In "/" slashes /\
  parse_repo "http://github.com/acme/widgets.git/" = Some ("acme", "widgets").
Proof.
  assert (W : well_formed "acme" "widgets" = true) by reflexivity.
  assert (P : In "http://" protocols) by (simpl; auto).
  assert (D : In ".git" dotgits) by (simpl; auto).
  assert (S : In "/" slashes) by (simpl; auto).
  refine (conj W (conj P (conj D (conj S _)))).
  exact (parse_repo_same_pair "http://" "acme" "widgets" ".git" "/" W P D S).
Defined.

(** C10. The host is not anchored: whenever the input, once every
    [https://] and [http://] is removed from it, ends with
    [github.com/owner/name] (with an optional [.git] and an optional slash),
    [parse_repo] succeeds with (owner, name), whatever stands before
    [github.com]. *)
Theorem parse_repo_unanchored (repository_url pre owner name dotgit slash : string) :
  well_formed owner name = true ->
  In dotgit dotgits -> In slash slashes ->
  strip_protocol repository_url = pre ++ github_url "" owner name dotgit slash ->
  parse_repo repository_url = Some (owner, name).
Proof.
  intros W Hd Hs E. unfold parse_repo. rewrite E.
  now rewrite (search_well_formed pre owner name dotgit slash W Hd Hs).
Qed.

Lemma parse_repo_unanchored_witness :
  well_formed "a" "b" = true /\
  strip_protocol "evil.example/github.com/a/b"
    = "evil.example/" ++ github_url "" "a" "b" "" "" /\
  parse_repo "evil.example/github.com/a/b" = Some ("a", "b").
Proof.
  assert (W : well_formed "a" "b" = true) by reflexivity.
  assert (D : In "" dotgits) by (simpl; auto).
  assert (S : In "" slashes) by (simpl; auto).
  assert (E : strip_protocol "evil.example/github.com/a/b"
              = "evil.example/" ++ github_url "" "a" "b" "" "") by reflexivity.
  refine (conj W (conj E _)).
  exact (parse_repo_unanchored "evil.example/github.com/a/b" "evil.example/"
           "a" "b" "" "" W D S E).
Defined.

(** ** Malformed URLs *)

Lemma search_some r (s : string) g :
  Re.search r s = Some g ->
  exists pre t x, s = pre ++ t /\ In x (Re.matches r t).
Proof.
  induction s as [|c s IH]; simpl.
  - destruct (Re.matches r "") as [|x l] eqn:E; [discriminate |].
    intros _. exists "", "", x. rewrite E. simpl. auto.
  - destruct (Re.matches r (String c s)) as [|x l] eqn:E.
    + intros H. destruct (IH H) as (pre & t & x & -> & Hx).
      exists (String c pre), t, x. auto.
    + intros _. exists "", (String c s), x. rewrite E. simpl. auto.
Qed.

(** [parse_repo] finds nothing in a malformed URL. *)
Lemma parse_repo_malformed (repository_url : string) :
  malformed repository_url -> parse_repo repository_url = None.
Proof.
  unfold malformed, parse_repo. intros M.
  destruct (Re.search url_pattern (strip_protocol repository_url)) as [g|] eqn:E;
    [| reflexivity].
  exfalso. apply M.
  apply search_some in E as (pre & t & x & -> & Hx).
  apply in_matches_url_pattern in Hx as (o & n & tl & -> & ? & ? & ? & ? & _).
  exists pre, o, n, tl. auto.
Qed.

Lemma not_a_url_malformed : malformed "not-a-url".
Proof.
  intros (pre & o & n & r & E & _).
  change (strip_protocol "not-a-url") with "not-a-url" in E.
  apply (f_equal (Str.all not_slash)) in E.
  change ("github.com/" ++ o ++ "/" ++ n ++ r)
    with ("github.com" ++ String "/" (o ++ "/" ++ n ++ r)) in E.
  rewrite !all_app in E. simpl in E.
  rewrite andb_false_r in E. discriminate.
Qed.

(** ** Claims about the guards *)

Section Guards.

Variable w : World.
Variable lib : Builtins.

(** C4. Without [GITHUB_TOKEN] in the environment, [test_simple_clone],
    [get_github_file] and [create_file_via_api] each return an error record
    that reports the missing token, and the trace is empty: no subprocess
    was started and no HTTP request was sent. *)
Theorem missing_token_rejected
    (repository_url file_path branch file_content commit_message : string) :
  environ w "GITHUB_TOKEN" = None ->
  rejected_with "No GitHub token found"
    (run (test_simple_clone w lib repository_url))
  /\ rejected_with "GitHub token not found. Please set GITHUB_TOKEN in your .env file."
       (run (get_github_file w lib repository_url file_path branch))
  /\ rejected_with "GitHub token not found"
       (run (create_file_via_api w lib repository_url file_path file_content
               commit_message)).
Proof.
  intros H. unfold rejected_with, run, test_simple_clone, get_github_file,
    create_file_via_api, try_except.
  rewrite H. simpl. repeat split; reflexivity.
Qed.

(** C5, as the code has it.  For a malformed URL each of the three
    operations returns an error record and the trace is empty: no
    subprocess, no HTTP request.  When [GITHUB_TOKEN] is set, the message is
    the invalid-format text followed by the input as it was given. *)
Theorem malformed_url_rejected
    (repository_url file_path branch file_content commit_message : string) :
  malformed repository_url ->
  let clone := run (test_simple_clone w lib repository_url) in
  let read := run (get_github_file w lib repository_url file_path branch) in
  let write := run (create_file_via_api w lib repository_url file_path
                      file_content commit_message) in
  (status_of (fst clone) = Some "error" /\ trace (snd clone) = []) /\
  (status_of (fst read) = Some "error" /\ trace (snd read) = []) /\
  (status_of (fst write) = Some "error" /\ trace (snd write) = []) /\
  (truthy (environ w "GITHUB_TOKEN") = true ->
   let message := "Invalid GitHub URL format: " ++ repository_url in
   rejected_with message clone /\ rejected_with message read
   /\ rejected_with message write).
Proof.
  intros M. apply parse_repo_malformed in M.
  unfold rejected_with, run, test_simple_clone, get_github_file,
    create_file_via_api, try_except.
  rewrite M. destruct (truthy (environ w "GITHUB_TOKEN")); simpl.
  - repeat split; reflexivity.
  - repeat split; try reflexivity; discriminate.
Qed.

End Guards.

Lemma missing_token_rejected_witness :
  environ Fixture.no_token "GITHUB_TOKEN" = None /\
  rejected_with "No GitHub token found"
    (run (test_simple_clone Fixture.no_token Fixture.lib "https://github.com/acme/widgets")).
Proof.
  assert (H : environ Fixture.no_token "GITHUB_TOKEN" = None) by reflexivity.
  refine (conj H _).
  exact (proj1 (missing_token_rejected Fixture.no_token Fixture.lib
                  "https://github.com/acme/widgets" "README.md" "main" "" "" H)).
Defined.

(** [test_simple_clone("not-a-url")] with a token set: [status=error], the
    invalid-format message, nothing was run. *)
Lemma malformed_url_rejected_witness :
  malformed "not-a-url" /\
  truthy (environ Fixture.healthy "GITHUB_TOKEN") = true /\
  rejected_with "Invalid GitHub URL format: not-a-url"
    (run (test_simple_clone Fixture.healthy Fixture.lib "not-a-url")) /\
  filter is_subprocess
    (trace (snd (run (test_simple_clone Fixture.healthy Fixture.lib "not-a-url")))) = [].
Proof.
  assert (Hy : truthy (environ Fixture.healthy "GITHUB_TOKEN") = true) by reflexivity.
  refine (conj not_a_url_malformed (conj Hy _)).
  destruct (malformed_url_rejected Fixture.healthy Fixture.lib
              "not-a-url" "README.md" "main" "" "" not_a_url_malformed)
    as [[S T] (_ & _ & R)].
  destruct (R Hy) as [Rc _].
  split; [exact Rc | now rewrite T].
Defined.

(** C5 as stated fails when the token is missing too: the token is looked
    for first, and the message is about the token, not about the URL. *)
Lemma malformed_url_without_token :
  malformed "not-a-url" /\
  field_of "error_message"
    (fst (run (test_simple_clone Fixture.no_token Fixture.lib "not-a-url")))
    = Some (VStr "No GitHub token found") /\
  contains "Invalid GitHub URL format" "No GitHub token found" = false.
Proof.
  split; [exact not_a_url_malformed | split; reflexivity].
Qed.

(** ** What the parser accepts *)

Lemma search_some_groups r (s : string) g :
  Re.search r s = Some g ->
  exists pre t x, s = pre ++ t /\ In x (Re.matches r t) /\ g = Re.groups x.
Proof.
  induction s as [|c s IH]; simpl.
  - destruct (Re.matches r "") as [|x l] eqn:E; [discriminate |].
    intros [= <-]. exists "", "", x. rewrite E. simpl. auto.
  - destruct (Re.matches r (String c s)) as [|x l] eqn:E.
    + intros H. destruct (IH H) as (pre & t & x & -> & Hx & G).
      exists (String c pre), t, x. auto.
    + intros [= <-]. exists "", (String c s), x. rewrite E. simpl. auto.
Qed.

Lemma search_not_none r (pre t : string) :
  Re.matches r t <> [] -> Re.search r (pre ++ t) <> None.
Proof.
  intros H. induction pre as [|c pre IH]; simpl.
  - destruct t; simpl; destruct (Re.matches r _); congruence.
  - destruct (Re.matches r (String c (pre ++ t))); [exact IH | discriminate].
Qed.

Lemma url_tail_in_tails (tl : string) y :
  In y (Re.matches url_tail tl) -> In tl url_tails.
Proof.
  intros H. apply in_matches_url_tail in H as (g & sl & e & -> & Hg & Hs & He).
  destruct Hg as [-> | ->]; destruct Hs as [-> | ->]; destruct He as [-> | ->];
    simpl; auto 10.
Qed.

Lemma url_tails_match (tl : string) :
  In tl url_tails -> Re.matches url_tail tl <> [].
Proof.
  simpl. intros H.
  repeat (destruct H as [<- | H]; [vm_compute; discriminate |]).
  contradiction.
Qed.

Lemma spans_whole cls (n sfx : string) :
  Str.all cls n = true -> nonempty n = true -> In (n, sfx) (Re.spans cls (n ++ sfx)).
Proof.
  induction n as [|c n IH]; intros Ha Hn; [discriminate |].
  simpl in Ha. apply andb_prop in Ha as [Hc Ha].
  change (String c n ++ sfx) with (String c (n ++ sfx)).
  cbn [Re.spans]. rewrite Hc.
  destruct n as [|d n].
  - left. reflexivity.
  - right. apply in_map_iff. exists (String d n, sfx). split; [reflexivity |].
    now apply IH.
Qed.

Lemma matches_seq_plus_some cls g r2 (n sfx : string) :
  Str.all cls n = true -> nonempty n = true ->
  Re.matches r2 sfx <> [] ->
  Re.matches (Re.Seq (Re.Group (Re.Plus cls g)) r2) (n ++ sfx) <> [].
Proof.
  intros Ha Hn H2.
  destruct (Re.matches r2 sfx) as [|y ys] eqn:E2; [contradiction |].
  assert (In (Re.mk [n] n sfx) (Re.matches (Re.Group (Re.Plus cls g)) (n ++ sfx))).
  { simpl. rewrite map_map. simpl. apply in_map_iff. exists (n, sfx).
    split; [reflexivity |].
    destruct g; [rewrite <- in_rev |]; now apply spans_whole. }
  assert (In (Re.mk ([n] ++ Re.groups y) (n ++ Re.consumed y) (Re.rest y))
             (Re.matches (Re.Seq (Re.Group (Re.Plus cls g)) r2) (n ++ sfx))).
  { cbn [Re.matches]. apply in_flat_map. eexists. split; [eassumption |].
    cbn [Re.rest Re.groups Re.consumed]. rewrite E2. now left. }
  intros E. rewrite E in *. contradiction.
Qed.

(** Where a repository is written, the pattern has a match. *)
Lemma url_pattern_matches (o n tl : string) :
  nonempty o = true -> Str.all not_slash o = true ->
  nonempty n = true -> Str.all not_slash n = true ->
  In tl url_tails ->
  Re.matches url_pattern ("github.com/" ++ o ++ "/" ++ n ++ tl) <> [].
Proof.
  intros Hno Hao Hnn Han Ht.
  unfold url_pattern. rewrite matches_seq_lit.
  intros E. apply map_eq_nil in E. revert E.
  change (o ++ "/" ++ n ++ tl) with (o ++ ("/" ++ n ++ tl)).
  apply matches_seq_plus_some; try assumption.
  rewrite matches_seq_lit. intros E. apply map_eq_nil in E. revert E.
  apply matches_seq_plus_some; try assumption.
  now apply url_tails_match.
Qed.

Lemma parse_repo_shape (repository_url owner name : string) :
  parse_repo repository_url = Some (owner, name) ->
  ends_with_repo (strip_protocol repository_url) owner name.
Proof.
  unfold parse_repo.
  destruct (Re.search url_pattern (strip_protocol repository_url)) as [g|] eqn:E;
    [| discriminate].
  apply search_some_groups in E as (pre & t & x & E & Hx & ->).
  apply in_matches_url_pattern in Hx
    as (o & n & tl & -> & Hno & Hao & Hnn & Han & [y Hy] & G).
  rewrite G. intros [= <- <-].
  exists pre, tl. apply url_tail_in_tails in Hy. auto 10.
Qed.

(** X1.  What [parse_repo] returns was written in the URL: once the
    protocol is removed, the input ends with [github.com/owner/name],
    followed by nothing more than an optional [.git], an optional slash and
    an optional final line break; neither part is empty or holds a slash. *)
Theorem parse_repo_sound (repository_url owner name : string) :
  parse_repo repository_url = Some (owner, name) ->
  ends_with_repo (strip_protocol repository_url) owner name
  /\ contains "/" owner = false /\ contains "/" name = false.
Proof.
  intros H. pose proof (parse_repo_shape _ _ _ H) as S.
  split; [exact S |].
  destruct S as (_ & _ & _ & _ & _ & Hao & _ & Han).
  assert (C : forall s, Str.all not_slash s = true -> contains "/" s = false).
  { induction s as [|c s IH]; [reflexivity |].
    intros A. simpl in A. apply andb_prop in A as [Hc A].
    unfold not_slash in Hc. apply negb_true_iff in Hc.
    cbn [contains]. rewrite (IH A). unfold Str.startswith. cbn [Str.strip_prefix].
    rewrite Ascii.eqb_sym, Hc. reflexivity. }
  split; now apply C.
Qed.

Lemma parse_repo_sound_witness :
  parse_repo "https://www.github.com/acme/widgets.git/" = Some ("acme", "widgets")
  /\ ends_with_repo (strip_protocol "https://www.github.com/acme/widgets.git/")
       "acme" "widgets".
Proof.
  assert (H : parse_repo "https://www.github.com/acme/widgets.git/"
              = Some ("acme", "widgets")) by reflexivity.
  refine (conj H _).
  exact (proj1 (parse_repo_sound _ _ _ H)).
Defined.

(** X2.  [parse_repo] finds a repository exactly in the inputs that, once
    the protocol is removed, end with [github.com/owner/name] and one of
    [url_tails], for some non-empty, slash-free owner and name. *)
Theorem parse_repo_accepts_iff (repository_url : string) :
  parse_repo repository_url <> None
  <-> exists owner name, ends_with_repo (strip_protocol repository_url) owner name.
Proof.
  split.
  - destruct (parse_repo repository_url) as [[o n]|] eqn:E; [| congruence].
    intros _. exists o, n. now apply parse_repo_shape.
  - intros (o & n & pre & tl & E & Ht & Hno & Hao & Hnn & Han).
    unfold parse_repo. rewrite E.
    pose proof (search_not_none url_pattern pre _
                  (url_pattern_matches o n tl Hno Hao Hnn Han Ht)) as S.
    destruct (Re.search url_pattern _) as [g|] eqn:Eg; [| congruence].
    apply search_some_groups in Eg as (pre' & t & x & _ & Hx & ->).
    apply in_matches_url_pattern in Hx as (o' & n' & tl' & _ & _ & _ & _ & _ & _ & G).
    rewrite G. discriminate.
Qed.

(** ** Running the operations

    The proofs below run an operation against an arbitrary world by cases
    on what the world answers. *)

Arguments Str.of_Z : simpl never.
Arguments Str.strip : simpl never.
Arguments Str.take : simpl never.
Arguments path_join : simpl never.
Arguments parse_repo : simpl never.
Arguments String.append : simpl never.
Arguments String.concat : simpl never.

Ltac break_match :=
  match goal with
  | |- context [match ?x with _ => _ end] =>
      lazymatch x with
      | context [match _ with _ => _ end] => fail
      | _ => destruct x eqn:?
      end
  end.

Ltac crunch := cbn; repeat (break_match; cbn).

Ltac unfold_monad :=
  unfold try_finally, try_except, bind, ret, raise, lift, except_Exception,
    requests_get, requests_put, py_get, py_item, mkdtemp, rmtree,
    path_exists, system, print, subprocess_run, append_to, append_local,
    assign, set_local, get_local, log.

Ltac use_equations :=
  repeat match goal with
         | H : _ = true |- _ => rewrite H
         | H : _ = false |- _ => rewrite H
         end.

Ltac tidy :=
  repeat match goal with u : unit |- _ => destruct u end;
  rewrite <- ?app_assoc; cbn [app].

(** *** [diagnose_git_setup], check by check *)

Section Diagnose.

Variable w : World.
Variable lib : Builtins.

Ltac grown :=
  tidy;
  eexists; split; [reflexivity |];
  eexists _, _; split; [reflexivity |];
  rewrite ?length_app; simpl; lia.

Lemma check_git_installation_grows st cs rs :
  local st = diagnosis cs rs ->
  (exists st', check_git_installation w st = (Ok tt, st') /\ grows 1 1 cs st')
  \/ (exists e st', check_git_installation w st = (Raise e, st')).
Proof.
  destruct st as [loc tr]. simpl. intros ->.
  unfold check_git_installation, grows, diagnosis, str. unfold_monad.
  crunch; try (left; grown); right; eauto.
Qed.

Lemma check_github_token_grows st cs rs :
  local st = diagnosis cs rs ->
  exists st', check_github_token w lib st = (Ok tt, st') /\ grows 1 2 cs st'.
Proof.
  destruct st as [loc tr]. simpl. intros ->.
  unfold check_github_token, grows, diagnosis, str. unfold_monad.
  crunch; grown.
Qed.

Lemma check_git_configuration_grows st cs rs :
  local st = diagnosis cs rs ->
  exists st', check_git_configuration w st = (Ok tt, st') /\ grows 1 2 cs st'.
Proof.
  destruct st as [loc tr]. simpl. intros ->.
  unfold check_git_configuration, grows, diagnosis, str. unfold_monad.
  crunch; grown.
Qed.

Lemma check_directory_permissions_grows st cs rs :
  local st = diagnosis cs rs ->
  exists st', check_directory_permissions w st = (Ok tt, st') /\ grows 1 2 cs st'.
Proof.
  destruct st as [loc tr]. simpl. intros ->.
  unfold check_directory_permissions, grows, diagnosis, str. unfold_monad.
  crunch; grown.
Qed.

Lemma check_network_connectivity_grows st cs rs :
  local st = diagnosis cs rs ->
  exists st', check_network_connectivity w st = (Ok tt, st') /\ grows 1 1 cs st'.
Proof.
  destruct st as [loc tr]. simpl. intros ->.
  unfold check_network_connectivity, grows, diagnosis, str. unfold_monad.
  crunch; grown.
Qed.

(** What [diagnose_git_setup] returns: the error record of the outer
    handler, or the report with its check lines. *)
Lemma diagnose_outcome :
  (exists e st,
      run (diagnose_git_setup w lib)
      = (Ok (VDict [("status", VStr "error");
                    ("error_message", VStr ("Diagnostic failed: " ++ exn_str e))]), st))
  \/ (exists cs rs st,
         run (diagnose_git_setup w lib) = (Ok (diagnosis cs rs), st)
         /\ 5 <= length cs <= 8).
Proof.
  cbv [run diagnose_git_setup try_except bind set_local get_local
         except_Exception ret local trace].
  destruct (check_git_installation_grows (mk_state diagnosis_init []) [] [] eq_refl)
    as [(st1 & E1 & cs1 & rs1 & L1 & B1) | (e & st1 & E1)]; rewrite E1;
    [| left; eauto].
  destruct (check_github_token_grows st1 cs1 rs1 L1)
    as (st2 & E2 & cs2 & rs2 & L2 & B2).
  rewrite E2.
  destruct (check_git_configuration_grows st2 cs2 rs2 L2)
    as (st3 & E3 & cs3 & rs3 & L3 & B3).
  rewrite E3.
  destruct (check_directory_permissions_grows st3 cs3 rs3 L3)
    as (st4 & E4 & cs4 & rs4 & L4 & B4).
  rewrite E4.
  destruct (check_network_connectivity_grows st4 cs4 rs4 L4)
    as (st5 & E5 & cs5 & rs5 & L5 & B5).
  rewrite E5. right. exists cs5, rs5, st5. fold (local st5). rewrite L5.
  split; [reflexivity |]. simpl in B1. lia.
Qed.

(** C2, as the code has it.  When [diagnose_git_setup] does not end in its
    outer handler, the report holds at least five and at most eight check
    lines: every one of the five checks writes one line or two. *)
Theorem diagnose_checks_between :
  let r := fst (run (diagnose_git_setup w lib)) in
  status_of r = Some "success" ->
  5 <= length (list_field "checks" r) <= 8.
Proof.
  destruct diagnose_outcome as [(e & st & E) | (cs & rs & st & E & B)];
    rewrite E; cbn; [discriminate | intros _; exact B].
Qed.

Lemma diagnose_returns_record :
  returns_record (run (diagnose_git_setup w lib)) = true.
Proof.
  destruct diagnose_outcome as [(e & st & E) | (cs & rs & st & E & B)];
    rewrite E; reflexivity.
Qed.

End Diagnose.

Lemma diagnose_checks_between_witness :
  status_of (fst (run (diagnose_git_setup Fixture.healthy Fixture.lib))) = Some "success"
  /\ 5 <= length (list_field "checks"
                    (fst (run (diagnose_git_setup Fixture.healthy Fixture.lib)))) <= 8.
Proof.
  assert (H : status_of (fst (run (diagnose_git_setup Fixture.healthy Fixture.lib)))
              = Some "success") by reflexivity.
  refine (conj H _).
  exact (diagnose_checks_between Fixture.healthy Fixture.lib H).
Defined.

(** C2 as stated fails: when everything works the report holds seven check
    lines, two for the token and two for the Git configuration. *)
Lemma diagnose_seven_checks :
  status_of (fst (run (diagnose_git_setup Fixture.healthy Fixture.lib))) = Some "success"
  /\ length (list_field "checks"
               (fst (run (diagnose_git_setup Fixture.healthy Fixture.lib)))) = 7.
Proof. split; reflexivity. Qed.

(** C8 fails on the code: when [git --version] runs into its timeout, the
    report holds a line with the failure marker and no recommendation at
    all. *)
Theorem failing_check_without_recommendation :
  let r := fst (run (diagnose_git_setup Fixture.git_hangs Fixture.lib)) in
  status_of r = Some "success"
  /\ In (VStr "❌ Git command timed out") (list_field "checks" r)
  /\ existsb is_failure (list_field "checks" r) = true
  /\ list_field "recommendations" r = [].
Proof.
  cbv zeta. repeat split; try reflexivity. vm_compute. auto.
Qed.

(** *** [test_simple_clone], phase by phase *)

Section Clone.

Variable w : World.
Variable lib : Builtins.

Lemma clone_with_token_spec (github_token owner repo repo_dir R : string) tr :
  exists evs ts s,
    clone_with_token w github_token owner repo repo_dir
      (mk_state (results "testing" R []) tr)
    = (Ok tt, mk_state (results s R ts) (tr ++ evs)%list)
    /\ s = (if existsb is_clone_success evs then "success" else "testing").
Proof.
  unfold clone_with_token, results, str. unfold_monad.
  crunch; tidy;
    (eexists _, _, _; split; [reflexivity | cbn; use_equations; reflexivity]).
Qed.

Lemma cleanup_spec (temp_dir s R : string) ts tr :
  exists evs ts',
    cleanup w temp_dir (mk_state (results s R ts) tr)
    = (Ok tt, mk_state (results s R (ts ++ ts')%list) (tr ++ evs)%list)
    /\ existsb is_clone_success evs = false
    /\ (exists b, In (EvExists temp_dir b) evs)
    /\ (In (EvExists temp_dir false) evs
        \/ In (EvRmtree temp_dir (Ok tt)) evs
        \/ exists e, In (EvRmtree temp_dir (Raise e)) evs
                     /\ In (cleanup_warning e) ts').
Proof.
  unfold cleanup, results, cleanup_warning, str. unfold_monad.
  crunch; tidy.
  - exists [EvExists temp_dir true; EvRmtree temp_dir (Ok tt)], [].
    rewrite app_nil_r. split; [reflexivity |]. split; [reflexivity |].
    split; [exists true; simpl; auto |]. right. left. simpl. auto.
  - exists [EvExists temp_dir true; EvRmtree temp_dir (Raise e)], [cleanup_warning e].
    split; [reflexivity |]. split; [reflexivity |].
    split; [exists true; simpl; auto |]. right. right. exists e. simpl. auto.
  - exists [EvExists temp_dir false], [].
    rewrite app_nil_r. split; [reflexivity |]. split; [reflexivity |].
    split; [exists false; simpl; auto |]. left. simpl. auto.
Qed.

Lemma api_access_spec (github_token owner repo s R : string) ts tr :
  exists evs ts',
    api_access w lib github_token owner repo (mk_state (results s R ts) tr)
    = (Ok tt, mk_state (results s R (ts ++ ts')%list) (tr ++ evs)%list)
    /\ existsb is_clone_success evs = false.
Proof.
  unfold api_access, results, str. unfold_monad.
  crunch; tidy; (eexists _, _; split; [reflexivity | reflexivity]).
Qed.

(** Past its guards and with its temporary directory, [test_simple_clone]
    returns the record it built: the status tells whether the clone ended
    with exit status 0, and the directory was looked for and, when there,
    removed, or the failure to remove it was written down. *)
Lemma test_simple_clone_outcome
    (repository_url github_token owner repo temp_dir : string) :
  environ w "GITHUB_TOKEN" = Some github_token ->
  truthy (Some github_token) = true ->
  parse_repo repository_url = Some (owner, repo) ->
  fs_mkdtemp w [] "clone_test_" = Ok temp_dir ->
  exists tests tr,
    run (test_simple_clone w lib repository_url)
    = (Ok (results (if existsb is_clone_success tr then "success" else "testing")
                   (owner ++ "/" ++ repo) tests),
       mk_state (results (if existsb is_clone_success tr then "success" else "testing")
                   (owner ++ "/" ++ repo) tests) tr)
    /\ (exists b, In (EvExists temp_dir b) tr)
    /\ (In (EvExists temp_dir false) tr
        \/ In (EvRmtree temp_dir (Ok tt)) tr
        \/ exists e, In (EvRmtree temp_dir (Raise e)) tr
                     /\ In (cleanup_warning e) tests).
Proof.
  intros Ht Hy Hp Hd.
  cbv [run test_simple_clone try_except try_finally bind set_local get_local
         except_Exception ret mkdtemp log local trace].
  rewrite Ht, Hy, Hp. cbn [negb app]. rewrite Hd.
  set (R := owner ++ "/" ++ repo).
  change (results_init owner repo) with (results "testing" R []).
  destruct (clone_with_token_spec github_token owner repo (path_join temp_dir repo) R
              [EvMkdtemp "clone_test_" (Ok temp_dir)]) as (e1 & t1 & s & E1 & Hs).
  rewrite E1.
  destruct (cleanup_spec temp_dir s R t1
              ([EvMkdtemp "clone_test_" (Ok temp_dir)] ++ e1)%list)
    as (e2 & t2 & E2 & N2 & [b A2] & D2).
  rewrite E2.
  destruct (api_access_spec github_token owner repo s R (t1 ++ t2)%list
              (([EvMkdtemp "clone_test_" (Ok temp_dir)] ++ e1) ++ e2)%list)
    as (e3 & t3 & E3 & N3).
  rewrite E3.
  exists ((t1 ++ t2) ++ t3)%list,
    ((([EvMkdtemp "clone_test_" (Ok temp_dir)] ++ e1) ++ e2) ++ e3)%list.
  assert (S : (if existsb is_clone_success
                     ((([EvMkdtemp "clone_test_" (Ok temp_dir)] ++ e1) ++ e2) ++ e3)%list
               then "success" else "testing") = s).
  { rewrite !existsb_app, N2, N3, !orb_false_r. cbn. now rewrite Hs. }
  rewrite S. split; [reflexivity |]. split.
  - exists b. apply in_or_app. left. apply in_or_app. now right.
  - destruct D2 as [D | [D | (e & D & Dw)]].
    + left. apply in_or_app. left. apply in_or_app. now right.
    + right. left. apply in_or_app. left. apply in_or_app. now right.
    + right. right. exists e. split.
      * apply in_or_app. left. apply in_or_app. now right.
      * apply in_or_app. left. apply in_or_app. now right.
Qed.

(** C6, as the code has it.  Past the token and URL guards, and once the
    temporary directory exists, the status of the returned record is
    [success] exactly when the clone with the token in the URL ended with
    exit status 0; in every other case (the clone failed, ran into its
    timeout, or something raised) it is still [testing]. *)
Theorem clone_status_follows_clone
    (repository_url github_token owner repo temp_dir : string) :
  environ w "GITHUB_TOKEN" = Some github_token ->
  truthy (Some github_token) = true ->
  parse_repo repository_url = Some (owner, repo) ->
  fs_mkdtemp w [] "clone_test_" = Ok temp_dir ->
  forall o, o = run (test_simple_clone w lib repository_url) ->
  status_of (fst o)
  = Some (if existsb is_clone_success (trace (snd o)) then "success" else "testing").
Proof.
  intros Ht Hy Hp Hd o ->.
  destruct (test_simple_clone_outcome _ _ _ _ _ Ht Hy Hp Hd) as (tests & tr & E & _).
  rewrite E. reflexivity.
Qed.

Lemma test_simple_clone_returns_record (repository_url : string) :
  returns_record (run (test_simple_clone w lib repository_url)) = true.
Proof.
  destruct (environ w "GITHUB_TOKEN") as [github_token|] eqn:Ht.
  - destruct (truthy (Some github_token)) eqn:Hy.
    + destruct (parse_repo repository_url) as [[owner repo]|] eqn:Hp.
      * destruct (fs_mkdtemp w [] "clone_test_") as [temp_dir|e] eqn:Hd.
        -- destruct (test_simple_clone_outcome _ _ _ _ _ Ht Hy Hp Hd)
             as (tests & tr & E & _).
           rewrite E. unfold returns_record. cbn.
           destruct (existsb is_clone_success tr); reflexivity.
        -- cbv [run test_simple_clone try_except try_finally bind set_local
                  get_local except_Exception ret mkdtemp log local trace].
           rewrite Ht, Hy, Hp. cbn [negb app]. rewrite Hd. reflexivity.
      * cbv [run test_simple_clone try_except ret]. rewrite Ht, Hy, Hp. reflexivity.
    + cbv [run test_simple_clone try_except ret]. rewrite Ht, Hy. reflexivity.
  - cbv [run test_simple_clone try_except ret]. rewrite Ht. reflexivity.
Qed.

End Clone.

(** *** The other operations *)

Section Records.

Variable w : World.
Variable lib : Builtins.

Lemma get_github_file_returns_record (repository_url file_path branch : string) :
  returns_record (run (get_github_file w lib repository_url file_path branch)) = true.
Proof.
  unfold run, get_github_file, str. unfold_monad.
  crunch; reflexivity.
Qed.

Lemma create_file_via_api_returns_record
    (repository_url file_path file_content commit_message : string) :
  returns_record
    (run (create_file_via_api w lib repository_url file_path file_content
            commit_message)) = true.
Proof.
  unfold run, create_file_via_api, str. unfold_monad.
  crunch; reflexivity.
Qed.

Lemma fix_git_setup_returns_record :
  returns_record (run (fix_git_setup w)) = true.
Proof.
  unfold run, fix_git_setup, fix_user_configuration, fix_credential_helper,
    fix_cached_credentials, str.
  unfold_monad.
  crunch; reflexivity.
Qed.

(** C1.  Whatever the world answers to the calls an operation makes, a
    process that fails, a request that raises, a body that is not JSON, a
    payload that does not decode, each of the five operations returns, and
    what it returns is a record whose [status] is one of [success],
    [error] and [testing]. *)
Theorem operations_return_records
    (repository_url file_path branch file_content commit_message : string) :
  returns_record (run (diagnose_git_setup w lib)) = true
  /\ returns_record (run (test_simple_clone w lib repository_url)) = true
  /\ returns_record (run (get_github_file w lib repository_url file_path branch)) = true
  /\ returns_record (run (fix_git_setup w)) = true
  /\ returns_record
       (run (create_file_via_api w lib repository_url file_path file_content
               commit_message)) = true.
Proof.
  split; [apply diagnose_returns_record |].
  split; [apply test_simple_clone_returns_record |].
  split; [apply get_github_file_returns_record |].
  split; [apply fix_git_setup_returns_record |].
  apply create_file_via_api_returns_record.
Qed.

(** C9 fails on the code: in every world the first call of
    [fix_git_setup] is [git config --global user.name] without a timeout,
    so its calls are not all bounded; nor are those of
    [diagnose_git_setup], whose [git config] calls have none either. *)
Theorem calls_without_timeout :
  (exists r rest,
      trace (snd (run (fix_git_setup w)))
      = EvRun ["git"; "config"; "--global"; "user.name"; "AI Agent"] None None r :: rest)
  /\ forallb bounded (trace (snd (run (fix_git_setup w)))) = false
  /\ forallb bounded
       (trace (snd (run (diagnose_git_setup Fixture.healthy Fixture.lib)))) = false
  /\ map timeout_of
       (filter is_subprocess
          (trace (snd (run (diagnose_git_setup Fixture.healthy Fixture.lib)))))
     = [Some 5%Z; None; None].
Proof.
  assert (H : exists r rest,
             trace (snd (run (fix_git_setup w)))
             = EvRun ["git"; "config"; "--global"; "user.name"; "AI Agent"]
                 None None r :: rest).
  { unfold run, fix_git_setup, fix_user_configuration, fix_credential_helper,
      fix_cached_credentials, str.
    unfold_monad.
    crunch; eauto. }
  split; [exact H |]. split; [| split; reflexivity].
  destruct H as (r & rest & ->). reflexivity.
Qed.

End Records.

(** ** Runs in the fixture worlds *)

Lemma clone_status_follows_clone_witness :
  environ Fixture.healthy "GITHUB_TOKEN" = Some "ghp_token"
  /\ parse_repo "https://github.com/acme/widgets" = Some ("acme", "widgets")
  /\ fs_mkdtemp Fixture.healthy [] "clone_test_" = Ok "/tmp/clone_test_x1"
  /\ status_of
       (fst (run (test_simple_clone Fixture.healthy Fixture.lib
                    "https://github.com/acme/widgets")))
     = Some (if existsb is_clone_success
                  (trace (snd (run (test_simple_clone Fixture.healthy Fixture.lib
                                      "https://github.com/acme/widgets"))))
             then "success" else "testing").
Proof.
  assert (Ht : environ Fixture.healthy "GITHUB_TOKEN" = Some "ghp_token") by reflexivity.
  assert (Hy : truthy (Some "ghp_token") = true) by reflexivity.
  assert (Hp : parse_repo "https://github.com/acme/widgets" = Some ("acme", "widgets"))
    by reflexivity.
  assert (Hd : fs_mkdtemp Fixture.healthy [] "clone_test_" = Ok "/tmp/clone_test_x1")
    by reflexivity.
  refine (conj Ht (conj Hp (conj Hd _))).
  exact (clone_status_follows_clone Fixture.healthy Fixture.lib
           "https://github.com/acme/widgets" "ghp_token" "acme" "widgets"
           "/tmp/clone_test_x1" Ht Hy Hp Hd _ eq_refl).
Defined.

(** C6 as stated fails: past both guards, when the temporary directory
    cannot be created, the outer handler returns [error], which is neither
    [success] nor [testing]. *)
Lemma clone_status_error_without_tmp :
  truthy (environ Fixture.no_tmp "GITHUB_TOKEN") = true
  /\ parse_repo "https://github.com/acme/widgets" = Some ("acme", "widgets")
  /\ status_of
       (fst (run (test_simple_clone Fixture.no_tmp Fixture.lib
                    "https://github.com/acme/widgets")))
     = Some "error"
  /\ existsb is_clone_success
       (trace (snd (run (test_simple_clone Fixture.no_tmp Fixture.lib
                           "https://github.com/acme/widgets")))) = false.
Proof. repeat split; reflexivity. Qed.


(** ** Examples *)

Example parse_plain :
  parse_repo "https://github.com/acme/widgets" = Some ("acme", "widgets").
Proof. reflexivity. Qed.

Example parse_git_slash :
  parse_repo "http://github.com/acme/widgets.git/" = Some ("acme", "widgets").
Proof. reflexivity. Qed.

Example parse_not_a_url : parse_repo "not-a-url" = None.
Proof. reflexivity. Qed.

Example parse_extra_path : parse_repo "github.com/a/b/c" = None.
Proof. reflexivity. Qed.

(** A name that itself ends in [.git] is not well formed: written without
    the suffix it loses its ending, written with it it keeps it. *)
Example parse_name_ending_in_dotgit :
  well_formed "a" "b.git" = false
  /\ parse_repo "github.com/a/b.git" = Some ("a", "b")
  /\ parse_repo "github.com/a/b.git.git" = Some ("a", "b.git").
Proof. repeat split; reflexivity. Qed.

(** [$] also matches before a final line break. *)
Example parse_trailing_newline :
  parse_repo ("github.com/a/b" ++ newline) = Some ("a", "b").
Proof. reflexivity. Qed.

Example strip_whitespace : Str.strip "  git version 2.40  " = "git version 2.40".
Proof. reflexivity. Qed.

Example of_Z_404 : Str.of_Z 404 = "404".
Proof. reflexivity. Qed.

Example healthy_diagnosis :
  list_field "checks" (fst (run (diagnose_git_setup Fixture.healthy Fixture.lib)))
  = [VStr "✅ Git installed: git version 2.40.0";
     VStr "✅ GITHUB_TOKEN environment variable found";
     VStr "✅ GitHub API access verified for user: octocat";
     VStr "✅ Git user.name: git version 2.40.0";
     VStr "✅ Git user.email: git version 2.40.0";
     VStr "✅ Can create temporary directories: /tmp/git_test_x1";
     VStr "✅ Network access to GitHub"].
Proof. reflexivity. Qed.

Example healthy_read :
  field_of "content"
    (fst (run (get_github_file Fixture.healthy Fixture.lib
                 "https://github.com/acme/widgets" "README.md" "main")))
  = Some (VStr "aGVsbG8=").
Proof. reflexivity. Qed.

(** * Further properties of the operations *)

Section Files.

Variable w : World.
Variable lib : Builtins.

(** X3.  With a token and a URL that parses, [get_github_file] makes
    exactly one call: a GET on the contents endpoint of the parsed owner and
    repository, with the token in the [Authorization] header and a timeout
    of 10 seconds; the [?ref=] qualifier is there exactly when the branch is
    not [main]. *)
Theorem read_single_request
    (repository_url file_path branch github_token owner repo : string) :
  environ w "GITHUB_TOKEN" = Some github_token ->
  truthy (Some github_token) = true ->
  parse_repo repository_url = Some (owner, repo) ->
  exists r,
    trace (snd (run (get_github_file w lib repository_url file_path branch)))
    = [EvGet
         (("https://api.github.com/repos/" ++ owner ++ "/" ++ repo
             ++ "/contents/" ++ file_path)
            ++ (if String.eqb branch "main" then "" else "?ref=" ++ branch))%string
         [("Authorization", ("token " ++ github_token)%string);
          ("Accept", "application/vnd.github.v3+json")]
         (Some 10%Z) r].
Proof.
  intros Ht Hy Hp.
  unfold run, get_github_file, token_header, str. rewrite Ht, Hy, Hp.
  unfold_monad.
  destruct (String.eqb branch "main"); cbn [negb]; rewrite ?append_nil_r;
    crunch; eexists; reflexivity.
Qed.

(** X4.  When [get_github_file] reports success, its one request was
    answered 200 with a JSON object; [sha] and [size] are read from that
    object ([None] and 0 when missing); [content] is the decoded text when
    the object declares [base64], which then needs a [content] entry that
    decodes, and otherwise the [content] entry as it stands ([''] when
    missing). *)
Theorem read_success_decoded (repository_url file_path branch : string) :
  forall o, o = run (get_github_file w lib repository_url file_path branch) ->
  status_of (fst o) = Some "success" ->
  exists u h resp d,
    trace (snd o) = [EvGet u h (Some 10%Z) (Ok resp)]
    /\ status_code resp = 200%Z
    /\ json resp = Ok (VDict d)
    /\ field_of "sha" (fst o) = Some (get_or "sha" VNone d)
    /\ field_of "size" (fst o) = Some (get_or "size" (VInt 0) d)
    /\ (if value_is_str (get_or "encoding" VNone d) "base64"
        then exists raw text,
            dict_get "content" d = Some raw
            /\ b64decode_utf8 lib raw = Ok text
            /\ field_of "content" (fst o) = Some (VStr text)
        else field_of "content" (fst o) = Some (get_or "content" (VStr "") d)).
Proof.
  intros o ->.
  unfold run, get_github_file, token_header, str. unfold_monad.
  crunch; intros H; try discriminate H.
  all: eexists _, _, _, _;
       (split; [reflexivity |]); (split; [now apply Z.eqb_eq |]);
       (split; [eassumption |]);
       unfold get_or;
       repeat match goal with Hd : dict_get _ _ = _ |- _ => rewrite Hd; clear Hd end;
       use_equations; cbn;
       repeat split; try reflexivity;
       try (eexists _, _; split; [reflexivity | split; [eassumption | reflexivity]]).
Qed.

(** X5.  The [details] of an error record of [get_github_file] or
    [create_file_via_api] is a string of at most 200 characters: [len] of
    it is at most 200, whatever the number of bytes. *)
Theorem error_details_bounded
    (repository_url file_path branch file_content commit_message : string) v :
  field_of "details"
    (fst (run (get_github_file w lib repository_url file_path branch))) = Some v
  \/ field_of "details"
       (fst (run (create_file_via_api w lib repository_url file_path file_content
                    commit_message))) = Some v ->
  exists s, v = VStr s /\ Str.chars s <= 200.
Proof.
  intros [H | H]; revert H.
  - unfold run, get_github_file, token_header, str. unfold_monad.
    crunch; intros H; try discriminate H; injection H as <-;
      eexists; (split; [reflexivity | apply take_chars]).
  - unfold run, create_file_via_api, token_header, str. unfold_monad.
    crunch; intros H; try discriminate H; injection H as <-;
      eexists; (split; [reflexivity | apply take_chars]).
Qed.

(** X6.  [create_file_via_api] makes no call at all, or exactly one: a PUT
    on the contents endpoint of the parsed owner and repository, 10 seconds,
    whose JSON body holds the commit message as given and the encoded
    content, and nothing else; in particular never the [sha] of a file
    that is already there. *)
Theorem write_single_request
    (repository_url file_path file_content commit_message : string) :
  trace (snd (run (create_file_via_api w lib repository_url file_path file_content
                     commit_message))) = []
  \/ exists github_token owner repo encoded r,
      environ w "GITHUB_TOKEN" = Some github_token
      /\ parse_repo repository_url = Some (owner, repo)
      /\ b64encode_utf8 lib file_content = Ok encoded
      /\ trace (snd (run (create_file_via_api w lib repository_url file_path
                            file_content commit_message)))
         = [EvPut
              ("https://api.github.com/repos/" ++ owner ++ "/" ++ repo
                 ++ "/contents/" ++ file_path)%string
              [("Authorization", ("token " ++ github_token)%string);
               ("Accept", "application/vnd.github.v3+json");
               ("Content-Type", "application/json")]
              (VDict [("message", VStr commit_message); ("content", VStr encoded)])
              (Some 10%Z) r].
Proof.
  unfold run, create_file_via_api, token_header, str. unfold_monad.
  crunch;
    try match goal with Hn : negb (truthy None) = false |- _ => discriminate Hn end;
    first [ left; reflexivity
          | right; eexists _, _, _, _, _;
            (split; [reflexivity |]); (split; [reflexivity |]);
            (split; reflexivity) ].
Qed.

(** X7.  When [create_file_via_api] reports success, its PUT was answered
    200 or 201 with a JSON object whose [commit] entry, an empty object
    when missing, is an object; [commit_sha] is the [sha] of that entry,
    [None] when missing. *)
Theorem write_success_commit
    (repository_url file_path file_content commit_message : string) :
  forall o, o = run (create_file_via_api w lib repository_url file_path file_content
                       commit_message) ->
  status_of (fst o) = Some "success" ->
  exists u h body resp d c,
    trace (snd o) = [EvPut u h body (Some 10%Z) (Ok resp)]
    /\ (status_code resp = 200%Z \/ status_code resp = 201%Z)
    /\ json resp = Ok (VDict d)
    /\ get_or "commit" (VDict []) d = VDict c
    /\ field_of "commit_sha" (fst o) = Some (get_or "sha" VNone c).
Proof.
  intros o ->.
  unfold run, create_file_via_api, token_header, str. unfold_monad.
  crunch; intros H; try discriminate H.
  all: match goal with
       | Hs : (_ || _)%bool = true |- _ =>
           apply orb_true_iff in Hs; rewrite !Z.eqb_eq in Hs
       end.
  all: eexists _, _, _, _, _, _;
       (split; [reflexivity |]); (split; [eassumption |]);
       (split; [eassumption |]);
       unfold get_or;
       repeat match goal with Hd : dict_get _ _ = _ |- _ => rewrite Hd; clear Hd end;
       split; reflexivity.
Qed.

End Files.

Section Fixes.

Variable w : World.

(** X8.  [fix_git_setup] reports [success] whatever the fixes did, with two
    or three lines in [fixes_applied]: first the line of the identity, last
    the line of the cached credentials, and between them a line for the
    credential helper exactly when the one [os.system] call that looks for
    it returned 0 or raised; when it returned another value there is no
    such line. *)
Theorem fix_always_success :
  status_of (fst (run (fix_git_setup w))) = Some "success"
  /\ 2 <= length (list_field "fixes_applied" (fst (run (fix_git_setup w)))) <= 3
  /\ exists found,
      filter is_system (trace (snd (run (fix_git_setup w))))
      = [EvSystem "which git-credential-osxkeychain" found]
      /\ fixes_report found
           (list_field "fixes_applied" (fst (run (fix_git_setup w)))) = true.
Proof.
  unfold run, fix_git_setup, fix_user_configuration, fix_credential_helper,
    fix_cached_credentials, called_process_error, str.
  unfold_monad.
  crunch;
    (split; [reflexivity |]); (split; [cbn; lia |]);
    eexists; (split; [reflexivity |]);
    cbn [list_field field_of fst dict_get String.eqb Ascii.eqb Bool.eqb];
    unfold fixes_report, helper_lines; use_equations; reflexivity.
Qed.

(** X9.  When setting [user.name] does not end with exit status 0,
    [user.email] is not set at all, and the first line of [fixes_applied]
    says the configuration could not be set. *)
Theorem fix_email_skipped :
  process_ok
    (os_run w [] ["git"; "config"; "--global"; "user.name"; "AI Agent"] None None)
  = false ->
  existsb (is_run_of ["git"; "config"; "--global"; "user.email"; "ai-agent@example.com"])
    (trace (snd (run (fix_git_setup w)))) = false
  /\ exists line rest,
      list_field "fixes_applied" (fst (run (fix_git_setup w))) = VStr line :: rest
      /\ Str.startswith "❌ Could not set Git config: " line = true.
Proof.
  unfold run, fix_git_setup, fix_user_configuration, fix_credential_helper,
    fix_cached_credentials, called_process_error, str.
  unfold_monad.
  crunch; intros H; try (rewrite H in *; discriminate);
    (split; [reflexivity | eexists _, _; split; reflexivity]).
Qed.

(** X10.  Whatever happened to the first two fixes, the last call of
    [fix_git_setup] is [git credential reject], fed
    [host=github.com], [protocol=https] and an empty line, and made
    without a timeout. *)
Theorem fix_rejects_last :
  ends_with_reject (trace (snd (run (fix_git_setup w)))) = true.
Proof.
  unfold run, fix_git_setup, fix_user_configuration, fix_credential_helper,
    fix_cached_credentials, str.
  unfold_monad.
  crunch; reflexivity.
Qed.

End Fixes.

(** ** The calls of [diagnose_git_setup] *)

Section DiagnoseCalls.

Variable w : World.
Variable lib : Builtins.

Ltac called :=
  try match goal with Hn : truthy None = true |- _ => discriminate Hn end;
  tidy;
  eexists _, _; (split; [reflexivity |]);
  (split; [eexists _, _; reflexivity |]);
  (split; [cbn [trace]; first [reflexivity | symmetry; apply app_nil_r] |]);
  cbn -[truthy]; rewrite ?String.eqb_refl; use_equations; reflexivity.

Lemma check_git_installation_calls st cs rs :
  local st = diagnosis cs rs ->
  exists st' res,
    check_git_installation w st = (res, st')
    /\ trace st'
       = (trace st
            ++ [EvRun ["git"; "--version"] None (Some 5%Z)
                  (os_run w (trace st) ["git"; "--version"] None (Some 5%Z))])%list
    /\ match res with
       | Ok _ =>
           unexpected_failure (os_run w (trace st) ["git"; "--version"] None (Some 5%Z))
           = false
           /\ exists cs' rs', local st' = diagnosis cs' rs'
       | Raise _ =>
           unexpected_failure (os_run w (trace st) ["git"; "--version"] None (Some 5%Z))
           = true
       end.
Proof.
  destruct st as [loc tr]. simpl. intros ->.
  unfold check_git_installation, diagnosis, str. unfold_monad.
  crunch; eexists _, _; (split; [reflexivity |]); (split; [reflexivity |]);
    first [ reflexivity | split; [reflexivity | eexists _, _; reflexivity] ].
Qed.

Lemma check_github_token_calls st cs rs :
  local st = diagnosis cs rs ->
  exists st' evs,
    check_github_token w lib st = (Ok tt, st')
    /\ (exists cs' rs', local st' = diagnosis cs' rs')
    /\ trace st' = (trace st ++ evs)%list
    /\ token_probe (environ w "GITHUB_TOKEN") evs = true.
Proof.
  destruct st as [loc tr]. simpl. intros ->.
  unfold check_github_token, token_header, diagnosis, str. unfold_monad.
  crunch; called.
Qed.

Lemma check_git_configuration_calls st cs rs :
  local st = diagnosis cs rs ->
  exists st' evs,
    check_git_configuration w st = (Ok tt, st')
    /\ (exists cs' rs', local st' = diagnosis cs' rs')
    /\ trace st' = (trace st ++ evs)%list
    /\ config_probe evs = true.
Proof.
  destruct st as [loc tr]. simpl. intros ->.
  unfold check_git_configuration, diagnosis, str. unfold_monad.
  crunch; called.
Qed.

Lemma check_directory_permissions_calls st cs rs :
  local st = diagnosis cs rs ->
  exists st' evs,
    check_directory_permissions w st = (Ok tt, st')
    /\ (exists cs' rs', local st' = diagnosis cs' rs')
    /\ trace st' = (trace st ++ evs)%list
    /\ directory_probe evs = true.
Proof.
  destruct st as [loc tr]. simpl. intros ->.
  unfold check_directory_permissions, diagnosis, str. unfold_monad.
  crunch; called.
Qed.

Lemma check_network_connectivity_calls st cs rs :
  local st = diagnosis cs rs ->
  exists st' evs,
    check_network_connectivity w st = (Ok tt, st')
    /\ (exists cs' rs', local st' = diagnosis cs' rs')
    /\ trace st' = (trace st ++ evs)%list
    /\ network_probe evs = true.
Proof.
  destruct st as [loc tr]. simpl. intros ->.
  unfold check_network_connectivity, diagnosis, str. unfold_monad.
  crunch; called.
Qed.

(** The run of [diagnose_git_setup], in its calls. *)
Lemma diagnose_run :
  let version := os_run w [] ["git"; "--version"] None (Some 5%Z) in
  let first := EvRun ["git"; "--version"] None (Some 5%Z) version in
  (unexpected_failure version = true
   /\ exists e,
       run (diagnose_git_setup w lib)
       = (Ok (VDict [("status", VStr "error");
                     ("error_message", VStr ("Diagnostic failed: " ++ exn_str e))]),
          mk_state diagnosis_init [first]))
  \/ (unexpected_failure version = false
      /\ exists cs rs e2 e3 e4 e5,
          run (diagnose_git_setup w lib)
          = (Ok (diagnosis cs rs),
             mk_state (diagnosis cs rs) ((((first :: e2) ++ e3) ++ e4) ++ e5)%list)
          /\ token_probe (environ w "GITHUB_TOKEN") e2 = true
          /\ config_probe e3 = true
          /\ directory_probe e4 = true
          /\ network_probe e5 = true).
Proof.
  cbv zeta.
  cbv [run diagnose_git_setup try_except bind set_local get_local
         except_Exception ret local trace].
  destruct (check_git_installation_calls (mk_state diagnosis_init []) [] [] eq_refl)
    as (st1 & res & E1 & T1 & C1).
  rewrite E1. cbn [trace app] in T1.
  destruct res as [u | e].
  - destruct C1 as (U & cs1 & rs1 & L1). right. split; [exact U |].
    destruct (check_github_token_calls st1 cs1 rs1 L1)
      as (st2 & e2 & E2 & (cs2 & rs2 & L2) & T2 & P2).
    rewrite E2.
    destruct (check_git_configuration_calls st2 cs2 rs2 L2)
      as (st3 & e3 & E3 & (cs3 & rs3 & L3) & T3 & P3).
    rewrite E3.
    destruct (check_directory_permissions_calls st3 cs3 rs3 L3)
      as (st4 & e4 & E4 & (cs4 & rs4 & L4) & T4 & P4).
    rewrite E4.
    destruct (check_network_connectivity_calls st4 cs4 rs4 L4)
      as (st5 & e5 & E5 & (cs5 & rs5 & L5) & T5 & P5).
    rewrite E5.
    exists cs5, rs5, e2, e3, e4, e5.
    fold (local st5). rewrite L5.
    destruct st5 as [l5 t5]. cbn [local trace] in *. subst l5.
    rewrite T5, T4, T3, T2, T1. auto.
  - left. split; [exact C1 |]. exists e.
    destruct st1 as [l1 t1]. cbn [trace] in T1. subst t1.
    revert E1. unfold check_git_installation, diagnosis_init, str. unfold_monad.
    crunch; intros E1; try discriminate E1; inversion E1; subst; reflexivity.
Qed.

(** X11.  [diagnose_git_setup] returns [status=error] exactly when
    [git --version] raises something other than [FileNotFoundError] and
    [subprocess.TimeoutExpired]; whatever else fails, a check that does not
    pass, a request that raises, the status is [success]. *)
Theorem diagnose_status_iff :
  status_of (fst (run (diagnose_git_setup w lib)))
  = Some (if unexpected_failure (os_run w [] ["git"; "--version"] None (Some 5%Z))
          then "error" else "success").
Proof.
  destruct diagnose_run as [(U & e & E) | (U & cs & rs & e2 & e3 & e4 & e5 & E & _)];
    rewrite E, U; reflexivity.
Qed.

(** X12.  The calls of [diagnose_git_setup] come in one fixed order.  After
    [git --version] the operation either stops (the case of X11) or goes
    through all four other checks, whatever each one finds: the request for
    the user when a token is set and no call otherwise, the two [git config]
    reads, the directory probe, in which the directory that was made is the
    one removed, and last the request for the front page. *)
Theorem diagnose_call_sequence :
  exists version,
    (status_of (fst (run (diagnose_git_setup w lib))) = Some "error"
     /\ trace (snd (run (diagnose_git_setup w lib)))
        = [EvRun ["git"; "--version"] None (Some 5%Z) version])
    \/ (status_of (fst (run (diagnose_git_setup w lib))) = Some "success"
        /\ exists e2 e3 e4 e5,
            trace (snd (run (diagnose_git_setup w lib)))
            = (EvRun ["git"; "--version"] None (Some 5%Z) version
                 :: e2 ++ e3 ++ e4 ++ e5)%list
            /\ token_probe (environ w "GITHUB_TOKEN") e2 = true
            /\ config_probe e3 = true
            /\ directory_probe e4 = true
            /\ network_probe e5 = true).
Proof.
  exists (os_run w [] ["git"; "--version"] None (Some 5%Z)).
  destruct diagnose_run
    as [(U & e & E) | (U & cs & rs & e2 & e3 & e4 & e5 & E & P2 & P3 & P4 & P5)];
    rewrite E.
  - left. split; reflexivity.
  - right. split; [reflexivity |]. exists e2, e3, e4, e5.
    cbn [snd trace]. rewrite <- !app_assoc. cbn [app]. auto.
Qed.

(** X13.  In check 4, when the directory is made and removing it raises,
    the report gets the line that directories can be created and, after
    it, the line that they cannot, with the exception of the removal, and
    the recommendation to check the permissions. *)
Theorem probe_directory_removal_fails st cs rs (made : string) (e : exn) :
  local st = diagnosis cs rs ->
  fs_mkdtemp w (trace st) "git_test_" = Ok made ->
  fs_rmtree w (trace st ++ [EvMkdtemp "git_test_" (Ok made)])%list made = Raise e ->
  exists st',
    check_directory_permissions w st = (Ok tt, st')
    /\ local st'
       = diagnosis
           (cs ++ [VStr ("✅ Can create temporary directories: " ++ made);
                   VStr ("❌ Cannot create temporary directories: " ++ exn_str e)])%list
           (rs ++ [VStr "Check file system permissions"])%list.
Proof.
  destruct st as [loc tr]. cbn [local trace]. intros -> Hm Hr.
  unfold check_directory_permissions, diagnosis, str. unfold_monad.
  cbn. rewrite Hm. cbn. rewrite Hr. cbn. tidy.
  eexists. split; reflexivity.
Qed.

End DiagnoseCalls.

Lemma probe_directory_removal_fails_witness :
  fs_mkdtemp Fixture.sticky_tmp [] "git_test_" = Ok "/tmp/git_test_x1"
  /\ exists st',
      check_directory_permissions Fixture.sticky_tmp (mk_state (diagnosis [] []) [])
      = (Ok tt, st')
      /\ local st'
         = diagnosis
             [VStr "✅ Can create temporary directories: /tmp/git_test_x1";
              VStr "❌ Cannot create temporary directories: [Errno 13] Permission denied"]
             [VStr "Check file system permissions"].
Proof.
  assert (Hm : fs_mkdtemp Fixture.sticky_tmp [] "git_test_" = Ok "/tmp/git_test_x1")
    by reflexivity.
  refine (conj Hm _).
  exact (probe_directory_removal_fails Fixture.sticky_tmp
           (mk_state (diagnosis [] []) []) [] [] "/tmp/git_test_x1"
           (mk_exn OtherException "[Errno 13] Permission denied")
           eq_refl Hm eq_refl).
Defined.

(** ** The calls of [test_simple_clone] *)

Section CloneCalls.

Variable w : World.
Variable lib : Builtins.

Lemma clone_with_token_calls (github_token owner repo repo_dir R : string) tr :
  exists evs ts s,
    clone_with_token w github_token owner repo repo_dir
      (mk_state (results "testing" R []) tr)
    = (Ok tt, mk_state (results s R ts) (tr ++ evs)%list)
    /\ 1 <= length ts <= 2
    /\ forallb bounded evs = true
    /\ existsb is_http evs = false
    /\ (filter is_subprocess evs = []
        \/ exists r,
            filter is_subprocess evs
            = [EvRun ["git"; "clone";
                      ("https://" ++ github_token ++ "@github.com/" ++ owner ++ "/"
                         ++ repo ++ ".git")%string;
                      repo_dir] None (Some 30%Z) r]).
Proof.
  unfold clone_with_token, results, str. unfold_monad.
  crunch; tidy;
    (eexists _, _, _; (split; [reflexivity |]); (split; [cbn; lia |]);
     (split; [reflexivity |]); (split; [reflexivity |]);
     first [ left; reflexivity | right; eexists; reflexivity ]).
Qed.

Lemma cleanup_calls (temp_dir s R : string) ts tr :
  exists evs ts',
    cleanup w temp_dir (mk_state (results s R ts) tr)
    = (Ok tt, mk_state (results s R (ts ++ ts')%list) (tr ++ evs)%list)
    /\ length ts' <= 1
    /\ forallb bounded evs = true
    /\ existsb is_http evs = false
    /\ filter is_subprocess evs = [].
Proof.
  unfold cleanup, results, cleanup_warning, str. unfold_monad.
  crunch; tidy.
  - exists [EvExists temp_dir true; EvRmtree temp_dir (Ok tt)], [].
    rewrite app_nil_r. cbn. auto.
  - exists [EvExists temp_dir true; EvRmtree temp_dir (Raise e)], [cleanup_warning e].
    cbn. auto.
  - exists [EvExists temp_dir false], []. rewrite app_nil_r. cbn. auto.
Qed.

Lemma api_access_calls (github_token owner repo s R : string) ts tr :
  exists r d,
    api_access w lib github_token owner repo (mk_state (results s R ts) tr)
    = (Ok tt,
       mk_state (results s R (ts ++ [VDict d])%list)
         (tr ++ [EvGet ("https://api.github.com/repos/" ++ owner ++ "/" ++ repo)%string
                   [("Authorization", ("token " ++ github_token)%string)]
                   (Some 10%Z) r])%list)
    /\ dict_get "method" d = Some (VStr "API Access").
Proof.
  unfold api_access, token_header, results, str. unfold_monad.
  crunch; tidy; (eexists _, _; split; reflexivity).
Qed.

(** The run of [test_simple_clone] past its guards, in its calls and its
    entries. *)
Lemma test_simple_clone_run
    (repository_url github_token owner repo temp_dir : string) :
  environ w "GITHUB_TOKEN" = Some github_token ->
  truthy (Some github_token) = true ->
  parse_repo repository_url = Some (owner, repo) ->
  fs_mkdtemp w [] "clone_test_" = Ok temp_dir ->
  exists s tests d body r,
    run (test_simple_clone w lib repository_url)
    = (Ok (results s (owner ++ "/" ++ repo) (tests ++ [VDict d])%list),
       mk_state (results s (owner ++ "/" ++ repo) (tests ++ [VDict d])%list)
         (EvMkdtemp "clone_test_" (Ok temp_dir)
            :: body
            ++ [EvGet ("https://api.github.com/repos/" ++ owner ++ "/" ++ repo)%string
                  [("Authorization", ("token " ++ github_token)%string)]
                  (Some 10%Z) r])%list)
    /\ dict_get "method" d = Some (VStr "API Access")
    /\ 1 <= length tests <= 3
    /\ forallb bounded body = true
    /\ existsb is_http body = false
    /\ (filter is_subprocess body = []
        \/ exists r',
            filter is_subprocess body
            = [EvRun ["git"; "clone";
                      ("https://" ++ github_token ++ "@github.com/" ++ owner ++ "/"
                         ++ repo ++ ".git")%string;
                      path_join temp_dir repo] None (Some 30%Z) r']).
Proof.
  intros Ht Hy Hp Hd.
  cbv [run test_simple_clone try_except try_finally bind set_local get_local
         except_Exception ret mkdtemp log local trace].
  rewrite Ht, Hy, Hp. cbn [negb app]. rewrite Hd.
  set (R := (owner ++ "/" ++ repo)%string).
  change (results_init owner repo) with (results "testing" R []).
  destruct (clone_with_token_calls github_token owner repo (path_join temp_dir repo) R
              [EvMkdtemp "clone_test_" (Ok temp_dir)])
    as (e1 & t1 & s & E1 & L1 & B1 & H1 & S1).
  rewrite E1.
  destruct (cleanup_calls temp_dir s R t1
              ([EvMkdtemp "clone_test_" (Ok temp_dir)] ++ e1)%list)
    as (e2 & t2 & E2 & L2 & B2 & H2 & S2).
  rewrite E2.
  destruct (api_access_calls github_token owner repo s R (t1 ++ t2)%list
              (([EvMkdtemp "clone_test_" (Ok temp_dir)] ++ e1) ++ e2)%list)
    as (r & d & E3 & M).
  rewrite E3.
  exists s, (t1 ++ t2)%list, d, (e1 ++ e2)%list, r.
  split; [| split; [exact M |]].
  - cbn [app]. rewrite <- !app_assoc. reflexivity.
  - rewrite length_app, forallb_app, existsb_app, filter_app, B1, B2, H1, H2, S2,
      app_nil_r.
    repeat split; try lia; try reflexivity. exact S1.
Qed.

(** X14.  Past its guards and with its temporary directory,
    [test_simple_clone] looks the repository up through the API exactly
    once, as its last call, whatever the clone did; before that it starts at
    most one process, the clone from the URL with the token in it into
    [temp_dir/repo], 30 seconds. *)
Theorem clone_call_sequence
    (repository_url github_token owner repo temp_dir : string) :
  environ w "GITHUB_TOKEN" = Some github_token ->
  truthy (Some github_token) = true ->
  parse_repo repository_url = Some (owner, repo) ->
  fs_mkdtemp w [] "clone_test_" = Ok temp_dir ->
  exists body r,
    trace (snd (run (test_simple_clone w lib repository_url)))
    = (EvMkdtemp "clone_test_" (Ok temp_dir)
         :: body
         ++ [EvGet ("https://api.github.com/repos/" ++ owner ++ "/" ++ repo)%string
               [("Authorization", ("token " ++ github_token)%string)]
               (Some 10%Z) r])%list
    /\ existsb is_http body = false
    /\ (filter is_subprocess body = []
        \/ exists r',
            filter is_subprocess body
            = [EvRun ["git"; "clone";
                      ("https://" ++ github_token ++ "@github.com/" ++ owner ++ "/"
                         ++ repo ++ ".git")%string;
                      path_join temp_dir repo] None (Some 30%Z) r']).
Proof.
  intros Ht Hy Hp Hd.
  destruct (test_simple_clone_run _ _ _ _ _ Ht Hy Hp Hd)
    as (s & tests & d & body & r & E & _ & _ & _ & H & S).
  exists body, r. rewrite E. auto.
Qed.

(** X15.  The record [test_simple_clone] then returns holds two to four
    test entries, and the last one is the entry of the API lookup. *)
Theorem clone_tests_end_with_api
    (repository_url github_token owner repo temp_dir : string) :
  environ w "GITHUB_TOKEN" = Some github_token ->
  truthy (Some github_token) = true ->
  parse_repo repository_url = Some (owner, repo) ->
  fs_mkdtemp w [] "clone_test_" = Ok temp_dir ->
  exists tests d,
    list_field "tests" (fst (run (test_simple_clone w lib repository_url)))
    = (tests ++ [VDict d])%list
    /\ dict_get "method" d = Some (VStr "API Access")
    /\ 2 <= length (list_field "tests"
                      (fst (run (test_simple_clone w lib repository_url)))) <= 4.
Proof.
  intros Ht Hy Hp Hd.
  destruct (test_simple_clone_run _ _ _ _ _ Ht Hy Hp Hd)
    as (s & tests & d & body & r & E & M & L & _).
  exists tests, d. rewrite E. unfold list_field, field_of, results. cbn.
  rewrite length_app. cbn. repeat split; try assumption; lia.
Qed.

Lemma test_simple_clone_bounded (repository_url : string) :
  forallb bounded (trace (snd (run (test_simple_clone w lib repository_url)))) = true.
Proof.
  destruct (environ w "GITHUB_TOKEN") as [github_token|] eqn:Ht.
  - destruct (truthy (Some github_token)) eqn:Hy.
    + destruct (parse_repo repository_url) as [[owner repo]|] eqn:Hp.
      * destruct (fs_mkdtemp w [] "clone_test_") as [temp_dir|e] eqn:Hd.
        -- destruct (test_simple_clone_run _ _ _ _ _ Ht Hy Hp Hd)
             as (s & tests & d & body & r & E & _ & _ & B & _).
           rewrite E. cbn [snd trace forallb]. rewrite forallb_app, B. reflexivity.
        -- cbv [run test_simple_clone try_except try_finally bind set_local
                  get_local except_Exception ret mkdtemp log local trace].
           rewrite Ht, Hy, Hp. cbn [negb app]. rewrite Hd. reflexivity.
      * cbv [run test_simple_clone try_except ret]. rewrite Ht, Hy, Hp. reflexivity.
    + cbv [run test_simple_clone try_except ret]. rewrite Ht, Hy. reflexivity.
  - cbv [run test_simple_clone try_except ret]. rewrite Ht. reflexivity.
Qed.

(** X16.  Every blocking call of [test_simple_clone], [get_github_file]
    and [create_file_via_api] has a timeout of 5 to 30 seconds, in every
    world. *)
Theorem api_operations_bounded
    (repository_url file_path branch file_content commit_message : string) :
  forallb bounded (trace (snd (run (test_simple_clone w lib repository_url)))) = true
  /\ forallb bounded
       (trace (snd (run (get_github_file w lib repository_url file_path branch))))
     = true
  /\ forallb bounded
       (trace (snd (run (create_file_via_api w lib repository_url file_path
                           file_content commit_message)))) = true.
Proof.
  split; [apply test_simple_clone_bounded |]. split.
  - unfold run, get_github_file, str. unfold_monad. crunch; reflexivity.
  - unfold run, create_file_via_api, str. unfold_monad. crunch; reflexivity.
Qed.

End CloneCalls.

(** ** The cleanup of [test_simple_clone] *)

Section CloneCleanup.

Variable w : World.
Variable lib : Builtins.




End CloneCleanup.

(** ** Further runs in the fixture worlds *)

Lemma read_single_request_witness :
  environ Fixture.healthy "GITHUB_TOKEN" = Some "ghp_token"
  /\ parse_repo "https://github.com/acme/widgets" = Some ("acme", "widgets")
  /\ exists r,
      trace (snd (run (get_github_file Fixture.healthy Fixture.lib
                         "https://github.com/acme/widgets" "README.md" "dev")))
      = [EvGet "https://api.github.com/repos/acme/widgets/contents/README.md?ref=dev"
           [("Authorization", "token ghp_token");
            ("Accept", "application/vnd.github.v3+json")]
           (Some 10%Z) r].
Proof.
  assert (Ht : environ Fixture.healthy "GITHUB_TOKEN" = Some "ghp_token") by reflexivity.
  assert (Hp : parse_repo "https://github.com/acme/widgets" = Some ("acme", "widgets"))
    by reflexivity.
  refine (conj Ht (conj Hp _)).
  exact (read_single_request Fixture.healthy Fixture.lib
           "https://github.com/acme/widgets" "README.md" "dev" "ghp_token"
           "acme" "widgets" Ht eq_refl Hp).
Defined.

Lemma read_success_decoded_witness :
  status_of (fst (run (get_github_file Fixture.healthy Fixture.lib
                         "https://github.com/acme/widgets" "README.md" "main")))
  = Some "success"
  /\ exists u h resp d,
      trace (snd (run (get_github_file Fixture.healthy Fixture.lib
                         "https://github.com/acme/widgets" "README.md" "main")))
      = [EvGet u h (Some 10%Z) (Ok resp)]
      /\ status_code resp = 200%Z
      /\ json resp = Ok (VDict d).
Proof.
  assert (H : status_of (fst (run (get_github_file Fixture.healthy Fixture.lib
                                     "https://github.com/acme/widgets" "README.md"
                                     "main")))
              = Some "success") by reflexivity.
  refine (conj H _).
  destruct (read_success_decoded Fixture.healthy Fixture.lib
              "https://github.com/acme/widgets" "README.md" "main" _ eq_refl H)
    as (u & h & resp & d & T & S & J & _).
  exists u, h, resp, d. auto.
Defined.

Lemma error_details_bounded_witness :
  exists s,
    field_of "details"
      (fst (run (get_github_file Fixture.server_error Fixture.lib
                   "https://github.com/acme/widgets" "README.md" "main")))
    = Some (VStr s)
    /\ Str.chars s <= 200.
Proof.
  destruct (error_details_bounded Fixture.server_error Fixture.lib
              "https://github.com/acme/widgets" "README.md" "main" "" ""
              (VStr (String.concat "" (repeat "é" 200)))
              (or_introl eq_refl))
    as (s & E & L).
  exists s. split; [| exact L]. rewrite <- E. reflexivity.
Defined.

Lemma write_success_commit_witness :
  status_of (fst (run (create_file_via_api Fixture.healthy Fixture.lib
                         "https://github.com/acme/widgets" "notes.txt" "hello"
                         "AI Agent: Created file")))
  = Some "success"
  /\ exists u h body resp d c,
      trace (snd (run (create_file_via_api Fixture.healthy Fixture.lib
                         "https://github.com/acme/widgets" "notes.txt" "hello"
                         "AI Agent: Created file")))
      = [EvPut u h body (Some 10%Z) (Ok resp)]
      /\ (status_code resp = 200%Z \/ status_code resp = 201%Z)
      /\ json resp = Ok (VDict d)
      /\ get_or "commit" (VDict []) d = VDict c
      /\ field_of "commit_sha"
           (fst (run (create_file_via_api Fixture.healthy Fixture.lib
                        "https://github.com/acme/widgets" "notes.txt" "hello"
                        "AI Agent: Created file")))
         = Some (get_or "sha" VNone c).
Proof.
  assert (H : status_of (fst (run (create_file_via_api Fixture.healthy Fixture.lib
                                     "https://github.com/acme/widgets" "notes.txt"
                                     "hello" "AI Agent: Created file")))
              = Some "success") by reflexivity.
  refine (conj H _).
  exact (write_success_commit Fixture.healthy Fixture.lib
           "https://github.com/acme/widgets" "notes.txt" "hello"
           "AI Agent: Created file" _ eq_refl H).
Defined.

Lemma fix_email_skipped_witness :
  process_ok
    (os_run Fixture.git_broken []
       ["git"; "config"; "--global"; "user.name"; "AI Agent"] None None) = false
  /\ existsb (is_run_of ["git"; "config"; "--global"; "user.email";
                         "ai-agent@example.com"])
       (trace (snd (run (fix_git_setup Fixture.git_broken)))) = false.
Proof.
  assert (H : process_ok
                (os_run Fixture.git_broken []
                   ["git"; "config"; "--global"; "user.name"; "AI Agent"] None None)
              = false) by reflexivity.
  refine (conj H _).
  exact (proj1 (fix_email_skipped Fixture.git_broken H)).
Defined.

Lemma clone_call_sequence_witness :
  environ Fixture.git_broken "GITHUB_TOKEN" = Some "ghp_token"
  /\ parse_repo "https://github.com/acme/widgets" = Some ("acme", "widgets")
  /\ fs_mkdtemp Fixture.git_broken [] "clone_test_" = Ok "/tmp/clone_test_x1"
  /\ exists body r,
      trace (snd (run (test_simple_clone Fixture.git_broken Fixture.lib
                         "https://github.com/acme/widgets")))
      = (EvMkdtemp "clone_test_" (Ok "/tmp/clone_test_x1")
           :: body
           ++ [EvGet "https://api.github.com/repos/acme/widgets"
                 [("Authorization", "token ghp_token")] (Some 10%Z) r])%list.
Proof.
  assert (Ht : environ Fixture.git_broken "GITHUB_TOKEN" = Some "ghp_token")
    by reflexivity.
  assert (Hp : parse_repo "https://github.com/acme/widgets" = Some ("acme", "widgets"))
    by reflexivity.
  assert (Hd : fs_mkdtemp Fixture.git_broken [] "clone_test_" = Ok "/tmp/clone_test_x1")
    by reflexivity.
  refine (conj Ht (conj Hp (conj Hd _))).
  destruct (clone_call_sequence Fixture.git_broken Fixture.lib
              "https://github.com/acme/widgets" "ghp_token" "acme" "widgets"
              "/tmp/clone_test_x1" Ht eq_refl Hp Hd)
    as (body & r & E & _).
  exists body, r. exact E.
Defined.

Lemma clone_tests_end_with_api_witness :
  environ Fixture.sticky_tmp "GITHUB_TOKEN" = Some "ghp_token"
  /\ parse_repo "https://github.com/acme/widgets" = Some ("acme", "widgets")
  /\ fs_mkdtemp Fixture.sticky_tmp [] "clone_test_" = Ok "/tmp/clone_test_x1"
  /\ 2 <= length (list_field "tests"
                    (fst (run (test_simple_clone Fixture.sticky_tmp Fixture.lib
                                 "https://github.com/acme/widgets")))) <= 4.
Proof.
  assert (Ht : environ Fixture.sticky_tmp "GITHUB_TOKEN" = Some "ghp_token")
    by reflexivity.
  assert (Hp : parse_repo "https://github.com/acme/widgets" = Some ("acme", "widgets"))
    by reflexivity.
  assert (Hd : fs_mkdtemp Fixture.sticky_tmp [] "clone_test_" = Ok "/tmp/clone_test_x1")
    by reflexivity.
  refine (conj Ht (conj Hp (conj Hd _))).
  destruct (clone_tests_end_with_api Fixture.sticky_tmp Fixture.lib
              "https://github.com/acme/widgets" "ghp_token" "acme" "widgets"
              "/tmp/clone_test_x1" Ht eq_refl Hp Hd)
    as (tests & d & _ & _ & L).
  exact L.
Defined.


(** [text[:2]] of three characters of two bytes each. *)
Example take_counts_characters :
  Str.take 2 "ééé" = "éé" /\ String.length (Str.take 2 "ééé") = 4
  /\ Str.chars (Str.take 2 "ééé") = 2.
Proof. repeat split; reflexivity. Qed.
